(** * mev_inspect.block: cache-or-fetch assembly of a block

    A shallow embedding of [src/mev_inspect/block.py] and the properties
    of its cache-or-fetch pipeline.

    - Python integers are [Z]; dictionaries are [gmap] with string keys;
      subscripting a missing key raises [KeyError].
    - Exceptions are values of [exception]; code that can raise returns a
      [result].
    - Code that talks to the trace database or to the node runs in [IO]:
      the database contents are threaded as state and every call that leaves
      the process is recorded, in issue order, in a list of [effect]s. *)

From stdpp Require Import gmap strings list.
From Stdlib Require Import ZArith Ascii.

Local Open Scope Z_scope.
Local Set Warnings "-register-all,-clear-no-such-hyp".

(** ** Values *)

(** JSON as Python sees it after decoding. *)
Inductive json : Type :=
  | JNull
  | JBool (b : bool)
  | JNum (z : Z)
  | JStr (s : string)
  | JList (l : list json)
  | JDict (d : gmap string json).

Inductive exception : Type :=
  | KeyError (key : string)
  | TypeError
  | ValueError
  | ValidationError
  | ConnectionError.

Inductive result (A : Type) : Type :=
  | Ok (a : A)
  | Raise (e : exception).
Arguments Ok {A} a.
Arguments Raise {A} e.

Definition is_Ok {A} (r : result A) : bool :=
  match r with Ok _ => true | Raise _ => false end.

Global Instance result_ret : MRet result := fun A a => Ok a.
Global Instance result_bind : MBind result := fun A B f r =>
  match r with
  | Ok a => f a
  | Raise e => Raise e
  end.

(** [d[key]] on a dictionary. *)
Definition getitem {V} (d : gmap string V) (key : string) : result V :=
  match d !! key with
  | Some v => Ok v
  | None => Raise (KeyError key)
  end.

(** [j[key]] on a decoded JSON value: only a dictionary can be subscripted
    with a string. *)
Definition json_getitem (j : json) (key : string) : result json :=
  match j with
  | JDict d => getitem d key
  | _ => Raise TypeError
  end.

(** A list comprehension [[f(x) for x in xs]] whose body can raise: the
    first exception aborts the comprehension. *)
Fixpoint comprehension {A B} (f : A → result B) (xs : list A) : result (list B) :=
  match xs with
  | [] => Ok []
  | x :: xs' =>
      y ← f x;
      ys ← comprehension f xs';
      mret (y :: ys)
  end.

(** ** Schemas (mev_inspect.schemas) *)

(** Modelled from the spec: the [TraceType] enumeration of
    [mev_inspect.schemas.traces], which "includes a reward variant"; the
    code of this module only separates [reward] from the other kinds. *)
Inductive TraceType : Type :=
  | call
  | create
  | reward
  | suicide.

Global Instance TraceType_eq_dec : EqDecision TraceType.
Proof. solve_decision. Defined.

(** Modelled from the spec: the attribute surface of [Trace] that this
    module reads: [type], [transaction_hash] (optional string) and [action]
    (a mapping, holding [author] for reward traces). *)
Record Trace : Type := {
  type : TraceType;
  transaction_hash : option string;
  action : gmap string string;
}.

(** The pydantic constructors of [Receipt] and [Trace], applied to the
    fields of a raw JSON record as keyword arguments, are not
    part of this module; they are parameters, and may raise. *)
Class Schemas : Type := {
  Receipt : Type;
  Receipt_kwargs : json → result Receipt;
  Trace_kwargs : json → result Trace;
}.

(** Modelled from the spec: the [Block] record of
    [mev_inspect.schemas.blocks]. *)
Record Block `{Schemas} : Type := {
  block_number : Z;
  block_timestamp : Z;
  miner : option string;
  base_fee_per_gas : Z;
  traces : list Trace;
  receipts : list Receipt;
}.

(** ** The outside world *)

(** The trace database behind an [orm.Session]: three tables keyed by block
    number. *)
Record TraceDb : Type := {
  blocks : gmap Z (Z * Z);
  block_traces : gmap Z (list json);
  block_receipts : gmap Z (list json);
}.

(** A session is a handle on the database; what it reads is the [TraceDb]
    threaded through [IO]. *)
Inductive Session : Type := session.

(** The node behind [w3]: each endpoint answers or raises. *)
Record Web3 : Type := {
  get_block : Z → result (gmap string Z);
  get_block_receipts : Z → result (list json);
  trace_block : Z → result (list json);
}.

Record BaseProvider : Type := {
  make_request : string → list json → result json;
}.

(** Calls that leave the process. *)
Inductive effect : Type :=
  | Select_blocks (block_number : Z)
  | Select_block_traces (block_number : Z)
  | Select_block_receipts (block_number : Z)
  | Eth_get_block (block_number : Z)
  | Eth_get_block_receipts (block_number : Z)
  | Eth_trace_block (block_number : Z)
  | Rpc_request (method : string) (params : list json).

(** ** The IO monad: database state, exceptions, and the log of calls *)

Record outcome (A : Type) : Type := Outcome {
  returned : result A;
  db_after : TraceDb;
  issued : list effect;
}.
Arguments Outcome {A} _ _ _.
Arguments returned {A} _.
Arguments db_after {A} _.
Arguments issued {A} _.

Record IO (A : Type) : Type := MkIO { run : TraceDb → outcome A }.
Arguments MkIO {A} _.
Arguments run {A} _ _.

Global Instance IO_ret : MRet IO := fun A a =>
  MkIO (fun db => Outcome (Ok a) db []).

Global Instance IO_bind : MBind IO := fun A B f m =>
  MkIO (fun db =>
    let o := run m db in
    match returned o with
    | Ok a =>
        let o' := run (f a) (db_after o) in
        Outcome (returned o') (db_after o') (issued o ++ issued o')
    | Raise e => Outcome (Raise e) (db_after o) (issued o)
    end).

(** A pure step that may raise. *)
Definition lift {A} (r : result A) : IO A :=
  MkIO (fun db => Outcome r db []).

(** [session.execute("SELECT ... WHERE block_number = :block_number")
    .one_or_none()] on each of the three tables. *)
Definition select_blocks (s : Session) (n : Z) : IO (option (Z * Z)) :=
  MkIO (fun db => Outcome (Ok (blocks db !! n)) db [Select_blocks n]).

Definition select_block_traces (s : Session) (n : Z) : IO (option (list json)) :=
  MkIO (fun db => Outcome (Ok (block_traces db !! n)) db [Select_block_traces n]).

Definition select_block_receipts (s : Session) (n : Z) : IO (option (list json)) :=
  MkIO (fun db => Outcome (Ok (block_receipts db !! n)) db [Select_block_receipts n]).

(** Awaited node calls. *)
Definition eth_get_block (w3 : Web3) (n : Z) : IO (gmap string Z) :=
  MkIO (fun db => Outcome (get_block w3 n) db [Eth_get_block n]).

Definition eth_get_block_receipts (w3 : Web3) (n : Z) : IO (list json) :=
  MkIO (fun db => Outcome (get_block_receipts w3 n) db [Eth_get_block_receipts n]).

Definition eth_trace_block (w3 : Web3) (n : Z) : IO (list json) :=
  MkIO (fun db => Outcome (trace_block w3 n) db [Eth_trace_block n]).

Definition provider_make_request (p : BaseProvider) (method : string)
    (params : list json) : IO json :=
  MkIO (fun db => Outcome (make_request p method params) db [Rpc_request method params]).

(** [asyncio.gather(a, b, c)]: the three coroutines are started in argument
    order and each one issues its calls whether or not another one raises;
    the gather returns the three results when all three returned, and
    raises when one of them raised.  Which exception surfaces when several
    sub-tasks raise depends on completion order; the model takes the
    leftmost, and no statement below depends on that choice. *)
Definition gather {A B C} (a : IO A) (b : IO B) (c : IO C) : IO (A * B * C) :=
  MkIO (fun db =>
    let oa := run a db in
    let ob := run b (db_after oa) in
    let oc := run c (db_after ob) in
    Outcome
      (match returned oa, returned ob, returned oc with
       | Ok x, Ok y, Ok z => Ok (x, y, z)
       | Raise e, _, _ => Raise e
       | _, Raise e, _ => Raise e
       | _, _, Raise e => Raise e
       end)
      (db_after oc)
      (issued oa ++ issued ob ++ issued oc)).

(** ** mev_inspect.utils *)

(** Modelled from the spec: the digit decoding behind [hex_to_int], which
    is not part of this module: the value of one hexadecimal digit, the
    base-16 value of a run of digits, and the removal of the prefix. *)
Definition hex_digit (c : ascii) : option Z :=
  let n := Z.of_N (N_of_ascii c) in
  if (48 <=? n) && (n <=? 57) then Some (n - 48)
  else if (97 <=? n) && (n <=? 102) then Some (n - 87)
  else if (65 <=? n) && (n <=? 70) then Some (n - 55)
  else None.

Fixpoint hex_digits (acc : Z) (s : string) : option Z :=
  match s with
  | EmptyString => Some acc
  | String c s' =>
      match hex_digit c with
      | Some d => hex_digits (16 * acc + d) s'
      | None => None
      end
  end.

Definition strip_0x (s : string) : string :=
  match s with
  | String "0"%char (String "x"%char s') => s'
  | String "0"%char (String "X"%char s') => s'
  | _ => s
  end.

(** Modelled from the spec: [hex_to_int] of [mev_inspect.utils], which is
    not part of this module.  It "decodes the hexadecimal block-number field
    into an integer" and fails on malformed input: a string of one or more
    hexadecimal digits, with an optional [0x] prefix, is read in base 16;
    any other string, and any value that is not a string, is rejected. *)
Definition hex_to_int (value : json) : result Z :=
  match value with
  | JStr s =>
      match strip_0x s with
      | EmptyString => Raise ValueError
      | digits =>
          match hex_digits 0 digits with
          | Some n => Ok n
          | None => Raise ValueError
          end
      end
  | _ => Raise TypeError
  end.

(** ** mev_inspect.block *)

Definition get_latest_block_number (base_provider : BaseProvider) : IO Z :=
  latest_block ← provider_make_request base_provider
                   "eth_getBlockByNumber" [JStr "latest"; JBool false];
  lift (result ← json_getitem latest_block "result";
        number ← json_getitem result "number";
        hex_to_int number).

Definition _fetch_block (w3 : Web3) (block_number : Z) : IO (Z * Z) :=
  block_json ← eth_get_block w3 block_number;
  lift (timestamp ← getitem block_json "timestamp";
        base_fee ← (if decide (block_number >= 12965000)
                    then getitem block_json "baseFeePerGas"
                    else Ok 0);
        mret (timestamp, base_fee)).

Definition _find_block (trace_db_session : Session) (block_number : Z)
    : IO (Z * Z) :=
  result ← select_blocks trace_db_session block_number;
  match result with
  | None => mret (0, 0)
  | Some (block_timestamp, base_fee) => mret (block_timestamp, base_fee)
  end.

Section with_schemas.
Context `{Schemas}.

Definition _fetch_block_receipts (w3 : Web3) (block_number : Z)
    : IO (list Receipt) :=
  receipts_json ← eth_get_block_receipts w3 block_number;
  lift (comprehension Receipt_kwargs receipts_json).

Definition _fetch_block_traces (w3 : Web3) (block_number : Z)
    : IO (list Trace) :=
  traces_json ← eth_trace_block w3 block_number;
  lift (comprehension Trace_kwargs traces_json).

Definition _find_block_traces (trace_db_session : Session) (block_number : Z)
    : IO (option (list Trace)) :=
  result ← select_block_traces trace_db_session block_number;
  match result with
  | None => mret None
  | Some traces_json =>
      traces ← lift (comprehension Trace_kwargs traces_json);
      mret (Some traces)
  end.

Definition _find_block_receipts (trace_db_session : Session) (block_number : Z)
    : IO (option (list Receipt)) :=
  result ← select_block_receipts trace_db_session block_number;
  match result with
  | None => mret None
  | Some receipts_json =>
      receipts ← lift (comprehension Receipt_kwargs receipts_json);
      mret (Some receipts)
  end.

(** The three cache-or-fetch lookups.  Each has the shape of the source: a
    guarded early return inside [if trace_db_session is not None], then the
    fetch. *)
Definition _find_or_fetch_block (w3 : Web3) (block_number : Z)
    (trace_db_session : option Session) : IO (Z * Z) :=
  match trace_db_session with
  | Some s =>
      '(existing_block_timestamp, existing_base_fee) ← _find_block s block_number;
      if decide (existing_block_timestamp ≠ 0)
      then mret (existing_block_timestamp, existing_base_fee)
      else _fetch_block w3 block_number
  | None => _fetch_block w3 block_number
  end.

Definition _find_or_fetch_block_receipts (w3 : Web3) (block_number : Z)
    (trace_db_session : option Session) : IO (list Receipt) :=
  match trace_db_session with
  | Some s =>
      existing_block_receipts ← _find_block_receipts s block_number;
      match existing_block_receipts with
      | Some found => mret found
      | None => _fetch_block_receipts w3 block_number
      end
  | None => _fetch_block_receipts w3 block_number
  end.

Definition _find_or_fetch_block_traces (w3 : Web3) (block_number : Z)
    (trace_db_session : option Session) : IO (list Trace) :=
  match trace_db_session with
  | Some s =>
      existing_block_traces ← _find_block_traces s block_number;
      match existing_block_traces with
      | Some found => mret found
      | None => _fetch_block_traces w3 block_number
      end
  | None => _fetch_block_traces w3 block_number
  end.

(** The loop returns at the first reward trace; [trace.action["author"]]
    is a plain subscript. *)
Fixpoint _get_miner_address_from_traces (traces : list Trace)
    : result (option string) :=
  match traces with
  | [] => Ok None
  | trace :: rest =>
      if decide (type trace = reward)
      then author ← getitem (action trace) "author"; mret (Some author)
      else _get_miner_address_from_traces rest
  end.

(** One iteration of the loop of [get_transaction_hashes], on the
    accumulator [result]. *)
Definition collect_hash (result : list string) (call : Trace) : list string :=
  if decide (type call ≠ reward)
  then match transaction_hash call with
       | Some h => if decide (h ∈ result) then result else result ++ [h]
       | None => result
       end
  else result.

Definition get_transaction_hashes (calls : list Trace) : list string :=
  fold_left collect_hash calls [].

Definition create_from_block_number (w3 : Web3) (block_number : Z)
    (trace_db_session : option Session) : IO Block :=
  '(header, receipts, traces) ←
     gather (_find_or_fetch_block w3 block_number trace_db_session)
            (_find_or_fetch_block_receipts w3 block_number trace_db_session)
            (_find_or_fetch_block_traces w3 block_number trace_db_session);
  let '(block_timestamp, base_fee) := header in
  miner_address ← lift (_get_miner_address_from_traces traces);
  mret {| block_number := block_number;
          block_timestamp := block_timestamp;
          miner := miner_address;
          base_fee_per_gas := base_fee;
          traces := traces;
          receipts := receipts |}.

End with_schemas.

(** ** Specification-side definitions *)

(** The hashes [get_transaction_hashes] looks at, in trace order: those of
    the traces that are not rewards and carry a transaction hash. *)
Definition candidate_hashes (calls : list Trace) : list string :=
  omap (λ c, if decide (type c = reward) then None else transaction_hash c) calls.

(** Duplicates removed, each value kept at its first occurrence. *)
Fixpoint first_occurrences (l : list string) : list string :=
  match l with
  | [] => []
  | x :: l' => x :: filter (λ y, y ≠ x) (first_occurrences l')
  end.

(** The characters of a string. *)
Fixpoint chars (s : string) : list ascii :=
  match s with
  | EmptyString => []
  | String c s' => c :: chars s'
  end.

(** A hexadecimal literal is malformed when nothing follows the optional
    prefix or when some character is not a hexadecimal digit. *)
Definition malformed_hex (s : string) : Prop :=
  strip_0x s = EmptyString ∨ ∃ c, c ∈ chars (strip_0x s) ∧ hex_digit c = None.

(** What the node alone answers for block [n]: the header after the height
    rule, and the parsed receipts and traces. *)
Definition fetched_header (w3 : Web3) (n : Z) : result (Z * Z) :=
  block_json ← get_block w3 n;
  timestamp ← getitem block_json "timestamp";
  base_fee ← (if decide (n >= 12965000)
              then getitem block_json "baseFeePerGas"
              else Ok 0);
  mret (timestamp, base_fee).

Section derived.
Context `{Schemas}.

Definition fetched_receipts (w3 : Web3) (n : Z) : result (list Receipt) :=
  receipts_json ← get_block_receipts w3 n;
  comprehension Receipt_kwargs receipts_json.

Definition fetched_traces (w3 : Web3) (n : Z) : result (list Trace) :=
  traces_json ← trace_block w3 n;
  comprehension Trace_kwargs traces_json.

(** The block built from the results of the three lookups. *)
Definition assemble (n : Z) (header : Z * Z) (rs : list Receipt)
    (trs : list Trace) : result Block :=
  miner_address ← _get_miner_address_from_traces trs;
  mret {| block_number := n;
          block_timestamp := header.1;
          miner := miner_address;
          base_fee_per_gas := header.2;
          traces := trs;
          receipts := rs |}.

End derived.

(** A computation that leaves the trace database as it found it. *)
Definition read_only {A} (m : IO A) : Prop :=
  ∀ db, db_after (run m db) = db.

(** The calls an assembly of block [n] is allowed to issue. *)
Definition block_reads (n : Z) : list effect :=
  [Select_blocks n; Eth_get_block n;
   Select_block_receipts n; Eth_get_block_receipts n;
   Select_block_traces n; Eth_trace_block n].

(** ** Fixtures: a concrete schema, node and database *)

Module Fixtures.

Record receipt : Type := { receipt_transaction_hash : string; gas_used : Z }.

Definition receipt_kwargs (j : json) : result receipt :=
  match j with
  | JDict d =>
      match d !! "transaction_hash", d !! "gas_used" with
      | Some (JStr h), Some (JNum g) =>
          Ok {| receipt_transaction_hash := h; gas_used := g |}
      | _, _ => Raise ValidationError
      end
  | _ => Raise TypeError
  end.

Definition trace_type_of (s : string) : option TraceType :=
  if decide (s = "call") then Some call
  else if decide (s = "create") then Some create
  else if decide (s = "reward") then Some reward
  else if decide (s = "suicide") then Some suicide
  else None.

Definition string_fields (d : gmap string json) : gmap string string :=
  omap (λ v, match v with JStr s => Some s | _ => None end) d.

Definition trace_kwargs (j : json) : result Trace :=
  match j with
  | JDict d =>
      match d !! "type", d !! "action" with
      | Some (JStr t), Some (JDict a) =>
          match trace_type_of t with
          | Some ty =>
              Ok {| type := ty;
                    transaction_hash :=
                      match d !! "transaction_hash" with
                      | Some (JStr h) => Some h
                      | _ => None
                      end;
                    action := string_fields a |}
          | None => Raise ValidationError
          end
      | _, _ => Raise ValidationError
      end
  | _ => Raise TypeError
  end.

Definition schemas : Schemas :=
  {| Receipt := receipt;
     Receipt_kwargs := receipt_kwargs;
     Trace_kwargs := trace_kwargs |}.

Definition reward_trace (author : string) : Trace :=
  {| type := reward; transaction_hash := None;
     action := {[ "author" := author ]} |}.

(** A reward trace whose action has no [author] entry. *)
Definition reward_without_author : Trace :=
  {| type := reward; transaction_hash := None;
     action := {[ "rewardType" := "block" ]} |}.

Definition tx (h : string) : Trace :=
  {| type := call; transaction_hash := Some h;
     action := {[ "from" := "0xf0" ]} |}.

Definition raw_reward (author : string) : json :=
  JDict {[ "type" := JStr "reward";
           "action" := JDict {[ "author" := JStr author ]} ]}.

Definition raw_tx (h : string) : json :=
  JDict {[ "type" := JStr "call";
           "transaction_hash" := JStr h;
           "action" := JDict {[ "from" := JStr "0xf0" ]} ]}.

Definition raw_receipt (h : string) : json :=
  JDict {[ "transaction_hash" := JStr h; "gas_used" := JNum 21000 ]}.

(** A node that answers every request; it reports a base fee of 7 at
    every height. *)
Definition node : Web3 :=
  {| get_block := λ _, Ok {[ "timestamp" := 1600000000; "baseFeePerGas" := 7 ]};
     get_block_receipts := λ _, Ok [raw_receipt "0xaa"];
     trace_block := λ _, Ok [raw_tx "0xaa"; raw_reward "0xbeef"] |}.

(** The same node with a failing trace endpoint. *)
Definition node_without_traces : Web3 :=
  {| get_block := get_block node;
     get_block_receipts := get_block_receipts node;
     trace_block := λ _, Raise ConnectionError |}.

Definition empty_db : TraceDb :=
  {| blocks := ∅; block_traces := ∅; block_receipts := ∅ |}.

(** Only the header of block 12970000 is cached. *)
Definition header_only_db : TraceDb :=
  {| blocks := {[ 12970000 := (1622547800, 1000000000) ]};
     block_traces := ∅; block_receipts := ∅ |}.

(** Block 100 is cached with a zero timestamp and with empty lists of
    receipts and traces. *)
Definition zero_db : TraceDb :=
  {| blocks := {[ 100 := (0, 5) ]};
     block_traces := {[ 100 := [] ]};
     block_receipts := {[ 100 := [] ]} |}.

Definition head_response : json :=
  JDict {[ "result" := JDict {[ "number" := JStr "0xa" ]} ]}.

Definition provider (response : result json) : BaseProvider :=
  {| make_request := λ _ _, response |}.

End Fixtures.

(** ** Further cases: databases and nodes for the edge behaviour *)

Module Cases.

(** Header, receipts and traces of block 12970000 are all cached. *)
Definition full_db : TraceDb :=
  {| blocks := {[ 12970000 := (1622547800, 1000000000) ]};
     block_traces :=
       {[ 12970000 := [Fixtures.raw_tx "0xaa"; Fixtures.raw_reward "0xbeef"] ]};
     block_receipts := {[ 12970000 := [Fixtures.raw_receipt "0xaa"] ]} |}.

(** Block 7 is cached with rows that do not parse. *)
Definition corrupt_db : TraceDb :=
  {| blocks := ∅;
     block_traces := {[ 7 := [JNull] ]};
     block_receipts := {[ 7 := [JDict ∅] ]} |}.

(** A node whose every endpoint fails. *)
Definition dead_node : Web3 :=
  {| get_block := λ _, Raise ConnectionError;
     get_block_receipts := λ _, Raise ConnectionError;
     trace_block := λ _, Raise ConnectionError |}.

(** A node that answers headers with the given fields only. *)
Definition node_with_header (block_json : gmap string Z) : Web3 :=
  {| get_block := λ _, Ok block_json;
     get_block_receipts := get_block_receipts Fixtures.node;
     trace_block := trace_block Fixtures.node |}.

(** A node that answers the given raw traces. *)
Definition node_with_traces (traces_json : list json) : Web3 :=
  {| get_block := get_block Fixtures.node;
     get_block_receipts := get_block_receipts Fixtures.node;
     trace_block := λ _, Ok traces_json |}.

(** A raw reward trace whose action is empty. *)
Definition raw_reward_without_author : json :=
  JDict {[ "type" := JStr "reward"; "action" := JDict ∅ ]}.

End Cases.

(** * Properties *)

(** ** Running [IO] computations *)

Lemma run_ret {A} (a : A) db : run (mret a) db = Outcome (Ok a) db [].
Proof. reflexivity. Qed.

Lemma run_lift {A} (r : result A) db : run (lift r) db = Outcome r db [].
Proof. reflexivity. Qed.

Lemma run_bind {A B} (m : IO A) (f : A → IO B) db :
  run (m ≫= f) db =
    match returned (run m db) with
    | Ok a =>
        Outcome (returned (run (f a) (db_after (run m db))))
                (db_after (run (f a) (db_after (run m db))))
                (issued (run m db) ++ issued (run (f a) (db_after (run m db))))
    | Raise e => Outcome (Raise e) (db_after (run m db)) (issued (run m db))
    end.
Proof. reflexivity. Qed.

(** ** The database is only read *)

Create HintDb read_only discriminated.

Lemma read_only_ret {A} (a : A) : read_only (mret a).
Proof. by intros db. Qed.

Lemma read_only_lift {A} (r : result A) : read_only (lift r).
Proof. by intros db. Qed.

Lemma read_only_bind {A B} (m : IO A) (f : A → IO B) :
  read_only m → (∀ a, read_only (f a)) → read_only (m ≫= f).
Proof.
  intros Hm Hf db. rewrite run_bind.
  destruct (returned (run m db)); simpl; [by rewrite Hm, Hf | apply Hm].
Qed.

Lemma read_only_gather {A B C} (a : IO A) (b : IO B) (c : IO C) :
  read_only a → read_only b → read_only c → read_only (gather a b c).
Proof. intros Ha Hb Hc db. simpl. by rewrite Hc, Hb, Ha. Qed.

Lemma read_only_select_blocks s n : read_only (select_blocks s n).
Proof. by intros db. Qed.

Lemma read_only_select_block_traces s n : read_only (select_block_traces s n).
Proof. by intros db. Qed.

Lemma read_only_select_block_receipts s n : read_only (select_block_receipts s n).
Proof. by intros db. Qed.

Lemma read_only_eth_get_block w3 n : read_only (eth_get_block w3 n).
Proof. by intros db. Qed.

Lemma read_only_eth_get_block_receipts w3 n : read_only (eth_get_block_receipts w3 n).
Proof. by intros db. Qed.

Lemma read_only_eth_trace_block w3 n : read_only (eth_trace_block w3 n).
Proof. by intros db. Qed.

Global Hint Resolve read_only_ret read_only_lift read_only_bind read_only_gather
  read_only_select_blocks read_only_select_block_traces
  read_only_select_block_receipts read_only_eth_get_block
  read_only_eth_get_block_receipts read_only_eth_trace_block : read_only.

Ltac read_only_cases :=
  repeat first
    [ progress (intros)
    | apply read_only_bind
    | apply read_only_gather
    | match goal with
      | |- read_only (match ?x with _ => _ end) => destruct x
      | |- read_only (let '(_, _) := ?x in _) => destruct x
      end
    | solve [auto with read_only] ].

Lemma read_only_fetch_block w3 n : read_only (_fetch_block w3 n).
Proof. unfold _fetch_block. read_only_cases. Qed.

Lemma read_only_find_block s n : read_only (_find_block s n).
Proof. unfold _find_block. read_only_cases. Qed.

Lemma read_only_find_or_fetch_block w3 n sess :
  read_only (_find_or_fetch_block w3 n sess).
Proof.
  pose proof read_only_fetch_block. pose proof read_only_find_block.
  unfold _find_or_fetch_block. read_only_cases.
Qed.

Section read_only_schemas.
Context `{Schemas}.

Lemma read_only_find_or_fetch_block_receipts w3 n sess :
  read_only (_find_or_fetch_block_receipts w3 n sess).
Proof.
  unfold _find_or_fetch_block_receipts, _find_block_receipts,
    _fetch_block_receipts.
  read_only_cases.
Qed.

Lemma read_only_find_or_fetch_block_traces w3 n sess :
  read_only (_find_or_fetch_block_traces w3 n sess).
Proof.
  unfold _find_or_fetch_block_traces, _find_block_traces, _fetch_block_traces.
  read_only_cases.
Qed.

Lemma read_only_create_from_block_number w3 n sess :
  read_only (create_from_block_number w3 n sess).
Proof.
  pose proof read_only_find_or_fetch_block.
  pose proof read_only_find_or_fetch_block_receipts.
  pose proof read_only_find_or_fetch_block_traces.
  unfold create_from_block_number. read_only_cases.
Qed.

End read_only_schemas.

(** ** What each lookup does, as a function of the database and the node *)

Lemma run_fetch_block w3 n db :
  run (_fetch_block w3 n) db = Outcome (fetched_header w3 n) db [Eth_get_block n].
Proof.
  unfold _fetch_block, fetched_header. rewrite run_bind. simpl.
  by destruct (get_block w3 n).
Qed.

Lemma run_find_block s n db :
  run (_find_block s n) db =
    Outcome (Ok (default (0, 0) (blocks db !! n))) db [Select_blocks n].
Proof.
  unfold _find_block. rewrite run_bind. simpl.
  by destruct (blocks db !! n) as [[ts bf]|].
Qed.

Lemma run_find_or_fetch_block_session w3 n s db :
  run (_find_or_fetch_block w3 n (Some s)) db =
    if decide ((default (0, 0) (blocks db !! n)).1 ≠ 0)
    then Outcome (Ok (default (0, 0) (blocks db !! n))) db [Select_blocks n]
    else Outcome (fetched_header w3 n) db [Select_blocks n; Eth_get_block n].
Proof.
  unfold _find_or_fetch_block. rewrite run_bind, run_find_block. simpl.
  destruct (default (0, 0) (blocks db !! n)) as [ts bf]. simpl.
  destruct (decide (ts ≠ 0)); [done|].
  by rewrite run_fetch_block.
Qed.

Lemma run_find_or_fetch_block_no_session w3 n db :
  run (_find_or_fetch_block w3 n None) db =
    Outcome (fetched_header w3 n) db [Eth_get_block n].
Proof. apply run_fetch_block. Qed.

Section lookups.
Context `{Schemas}.

Lemma run_fetch_block_receipts w3 n db :
  run (_fetch_block_receipts w3 n) db =
    Outcome (fetched_receipts w3 n) db [Eth_get_block_receipts n].
Proof.
  unfold _fetch_block_receipts, fetched_receipts. rewrite run_bind. simpl.
  by destruct (get_block_receipts w3 n).
Qed.

Lemma run_fetch_block_traces w3 n db :
  run (_fetch_block_traces w3 n) db =
    Outcome (fetched_traces w3 n) db [Eth_trace_block n].
Proof.
  unfold _fetch_block_traces, fetched_traces. rewrite run_bind. simpl.
  by destruct (trace_block w3 n).
Qed.

Lemma run_find_or_fetch_block_receipts_session w3 n s db :
  run (_find_or_fetch_block_receipts w3 n (Some s)) db =
    match block_receipts db !! n with
    | Some receipts_json =>
        Outcome (comprehension Receipt_kwargs receipts_json) db
                [Select_block_receipts n]
    | None =>
        Outcome (fetched_receipts w3 n) db
                [Select_block_receipts n; Eth_get_block_receipts n]
    end.
Proof.
  unfold _find_or_fetch_block_receipts, _find_block_receipts.
  rewrite !run_bind. simpl.
  destruct (block_receipts db !! n) as [raw|]; simpl.
  - by destruct (comprehension Receipt_kwargs raw).
  - unfold fetched_receipts. by destruct (get_block_receipts w3 n).
Qed.

Lemma run_find_or_fetch_block_traces_session w3 n s db :
  run (_find_or_fetch_block_traces w3 n (Some s)) db =
    match block_traces db !! n with
    | Some traces_json =>
        Outcome (comprehension Trace_kwargs traces_json) db
                [Select_block_traces n]
    | None =>
        Outcome (fetched_traces w3 n) db
                [Select_block_traces n; Eth_trace_block n]
    end.
Proof.
  unfold _find_or_fetch_block_traces, _find_block_traces.
  rewrite !run_bind. simpl.
  destruct (block_traces db !! n) as [raw|]; simpl.
  - by destruct (comprehension Trace_kwargs raw).
  - unfold fetched_traces. by destruct (trace_block w3 n).
Qed.

(** The assembly runs the three lookups against the same database, issues
    the calls of all three, and joins their results. *)
Lemma run_create_from_block_number w3 n sess db :
  let oh := run (_find_or_fetch_block w3 n sess) db in
  let or := run (_find_or_fetch_block_receipts w3 n sess) db in
  let ot := run (_find_or_fetch_block_traces w3 n sess) db in
  run (create_from_block_number w3 n sess) db =
    Outcome
      (match returned oh, returned or, returned ot with
       | Ok header, Ok rs, Ok trs => assemble n header rs trs
       | Raise e, _, _ => Raise e
       | _, Raise e, _ => Raise e
       | _, _, Raise e => Raise e
       end)
      db
      (issued oh ++ issued or ++ issued ot).
Proof.
  intros oh or ot. unfold create_from_block_number.
  rewrite run_bind. simpl.
  rewrite !read_only_find_or_fetch_block,
    !read_only_find_or_fetch_block_receipts,
    !read_only_find_or_fetch_block_traces.
  fold oh or ot.
  destruct (returned oh) as [[ts bf]|e1], (returned or) as [rs|e2],
    (returned ot) as [trs|e3]; simpl; try done.
  unfold assemble. simpl.
  destruct (_get_miner_address_from_traces trs); simpl;
    by rewrite ?app_nil_r.
Qed.

End lookups.

(** ** The miner address *)

Lemma miner_skips_non_rewards (before rest : list Trace) :
  Forall (λ t, type t ≠ reward) before →
  _get_miner_address_from_traces (before ++ rest) =
    _get_miner_address_from_traces rest.
Proof.
  induction 1 as [|t before Ht _ IH]; [done|].
  simpl. by rewrite decide_False.
Qed.

Lemma miner_at_reward (trace : Trace) (after : list Trace) :
  type trace = reward →
  _get_miner_address_from_traces (trace :: after) =
    (author ← getitem (action trace) "author"; mret (Some author)).
Proof. intros Ht. simpl. by rewrite decide_True. Qed.

(** Every list of traces is either free of rewards or splits at its first
    reward. *)
Lemma first_reward_split (traces : list Trace) :
  Forall (λ t, type t ≠ reward) traces
  ∨ ∃ before trace after,
      traces = before ++ trace :: after
      ∧ Forall (λ t, type t ≠ reward) before
      ∧ type trace = reward.
Proof.
  induction traces as [|t traces IH]; [by left|].
  destruct (decide (type t = reward)) as [Ht|Ht].
  - right. by exists [], t, traces.
  - destruct IH as [IH|(before & trace & after & -> & Hb & Hr)].
    + left. by constructor.
    + right. exists (t :: before), trace, after. by repeat constructor.
Qed.

(** C5: [_get_miner_address_from_traces] returns the [author] entry of the
    action of the first trace of type [reward], whatever follows it (further
    reward traces included), and returns [None], without raising, when no
    trace is a reward. *)
Theorem miner_is_first_reward_author (traces : list Trace) :
  (∀ before trace after author,
     traces = before ++ trace :: after →
     Forall (λ t, type t ≠ reward) before →
     type trace = reward →
     action trace !! "author" = Some author →
     _get_miner_address_from_traces traces = Ok (Some author))
  ∧ (Forall (λ t, type t ≠ reward) traces →
     _get_miner_address_from_traces traces = Ok None).
Proof.
  split.
  - intros before trace after author -> Hb Hr Ha.
    rewrite miner_skips_non_rewards, miner_at_reward by done.
    unfold getitem. by rewrite Ha.
  - intros Hall. rewrite <- (app_nil_r traces).
    by rewrite miner_skips_non_rewards.
Qed.

(** C10: [_get_miner_address_from_traces] raises [KeyError] exactly when
    the action of the first reward trace has no [author] entry; it raises
    nothing else, so it returns normally on every list whose reward traces
    all carry an [author]. *)
Theorem miner_raises_iff_author_missing (traces : list Trace) :
  ((∃ before trace after,
      traces = before ++ trace :: after
      ∧ Forall (λ t, type t ≠ reward) before
      ∧ type trace = reward
      ∧ action trace !! "author" = None)
   ↔ _get_miner_address_from_traces traces = Raise (KeyError "author"))
  ∧ (∀ e, _get_miner_address_from_traces traces = Raise e →
          e = KeyError "author")
  ∧ (Forall (λ t, type t = reward → is_Some (action t !! "author")) traces →
     is_Ok (_get_miner_address_from_traces traces) = true).
Proof.
  destruct (first_reward_split traces)
    as [Hnone|(before & trace & after & -> & Hb & Hr)].
  - assert (_get_miner_address_from_traces traces = Ok None) as Hres.
    { rewrite <- (app_nil_r traces). by rewrite miner_skips_non_rewards. }
    rewrite Hres. split_and!; [split| |]; try done.
    intros (b & t & a & -> & _ & Ht & _).
    apply Forall_app in Hnone as [_ Hnone].
    by apply Forall_cons in Hnone as [? _].
  - rewrite miner_skips_non_rewards, miner_at_reward by done.
    unfold getitem.
    destruct (action trace !! "author") as [author|] eqn:Ha; simpl.
    + split_and!; [split| |]; try done.
      intros (b & t & a & Heq & Hb' & Ht & Hnone).
      assert (b = before ∧ t = trace) as [-> ->]; [|congruence].
      clear Ha Hnone. revert b Heq Hb'.
      induction Hb as [|x before Hx Hb IH]; intros [|y b] Heq Hb'.
      * by simplify_eq/=.
      * simplify_eq/=. by apply Forall_cons in Hb' as [? _].
      * by simplify_eq/=.
      * simplify_eq/=. apply Forall_cons in Hb' as [_ Hb'].
        by destruct (IH b) as [-> ->].
    + split_and!; [split| |].
      * done.
      * intros _. by exists before, trace, after.
      * by intros e [= <-].
      * intros Hall. apply Forall_app in Hall as [_ Hall].
        apply Forall_cons in Hall as [Hsome _].
        destruct (Hsome Hr) as [? ?]. congruence.
Qed.

(** ** Transaction hashes *)

Lemma candidate_hashes_cons (c : Trace) (calls : list Trace) :
  candidate_hashes (c :: calls) =
    if decide (type c = reward) then candidate_hashes calls
    else match transaction_hash c with
         | Some h => h :: candidate_hashes calls
         | None => candidate_hashes calls
         end.
Proof.
  unfold candidate_hashes. simpl.
  destruct (decide (type c = reward)); [done|].
  by destruct (transaction_hash c).
Qed.

Lemma elem_of_first_occurrences (l : list string) (h : string) :
  h ∈ first_occurrences l ↔ h ∈ l.
Proof.
  induction l as [|x l IH]; [done|].
  simpl. rewrite !elem_of_cons, list_elem_of_filter, IH.
  destruct (decide (h = x)); tauto.
Qed.

Lemma NoDup_first_occurrences (l : list string) : NoDup (first_occurrences l).
Proof.
  induction l as [|x l IH]; simpl; [constructor|].
  apply NoDup_cons. split.
  - rewrite list_elem_of_filter. by intros [? _].
  - by apply NoDup_filter.
Qed.

(** The loop invariant: after the traces seen so far the accumulator holds
    what it held before, followed by the first occurrences of the new
    hashes. *)
Lemma fold_collect_hash (calls : list Trace) (acc : list string) :
  fold_left collect_hash calls acc =
    acc ++ filter (λ h, h ∉ acc) (first_occurrences (candidate_hashes calls)).
Proof.
  revert acc. induction calls as [|c calls IH]; intros acc.
  { simpl. by rewrite app_nil_r. }
  cbn [fold_left]. rewrite IH, candidate_hashes_cons. unfold collect_hash.
  destruct (decide (type c = reward)) as [Hr|Hr].
  { rewrite decide_False; [done|]. by intros ?. }
  rewrite decide_True by done.
  destruct (transaction_hash c) as [h|]; [|done].
  simpl. destruct (decide (h ∈ acc)) as [Hin|Hin].
  - rewrite filter_cons_False by (by intros ?).
    rewrite list_filter_filter_l; [done|]. intros y Hy ->. done.
  - rewrite filter_cons_True by done.
    rewrite <- app_assoc. simpl. do 2 f_equal.
    rewrite list_filter_filter. apply list_filter_iff.
    intros y. rewrite elem_of_app, list_elem_of_singleton. tauto.
Qed.

(** C6: [get_transaction_hashes] returns the transaction hashes of the
    traces that are not rewards and have a hash, each hash once, at the
    position of its first occurrence; on [reward, tx(A), tx(B), tx(A),
    reward] it returns [A, B]. *)
Theorem transaction_hashes_deduplicated_in_order (calls : list Trace) :
  get_transaction_hashes calls = first_occurrences (candidate_hashes calls)
  ∧ NoDup (get_transaction_hashes calls)
  ∧ (∀ h, h ∈ get_transaction_hashes calls ↔
          ∃ c, c ∈ calls ∧ type c ≠ reward ∧ transaction_hash c = Some h)
  ∧ get_transaction_hashes
      [Fixtures.reward_trace "0x01"; Fixtures.tx "A"; Fixtures.tx "B";
       Fixtures.tx "A"; Fixtures.reward_trace "0x02"] = ["A"; "B"].
Proof.
  assert (get_transaction_hashes calls
          = first_occurrences (candidate_hashes calls)) as Heq.
  { unfold get_transaction_hashes. rewrite fold_collect_hash. simpl.
    induction (first_occurrences _) as [|x l IH]; [done|].
    rewrite filter_cons_True by apply not_elem_of_nil.
    by rewrite IH. }
  split_and!.
  - done.
  - rewrite Heq. apply NoDup_first_occurrences.
  - intros h. rewrite Heq, elem_of_first_occurrences.
    unfold candidate_hashes. rewrite list_elem_of_omap.
    split; intros (c & Hc & Hh); exists c; (split; [done|]).
    + by destruct (decide (type c = reward)).
    + destruct Hh as [Hne ->]. by rewrite decide_False.
  - reflexivity.
Qed.

(** ** Calls issued by the lookups *)

(** Case analysis on membership in an explicit list of calls. *)
Ltac one_of_calls H :=
  repeat (apply elem_of_cons in H as [H|H]; [try discriminate H|]);
  try (by apply elem_of_nil in H).

Lemma issued_find_or_fetch_block w3 n sess db :
  issued (run (_find_or_fetch_block w3 n sess) db)
    ⊆ [Select_blocks n; Eth_get_block n].
Proof.
  destruct sess as [s|].
  - rewrite run_find_or_fetch_block_session.
    destruct (decide _); simpl; set_solver.
  - rewrite run_find_or_fetch_block_no_session. simpl. set_solver.
Qed.

Section properties.
Context `{Schemas}.

Lemma run_find_or_fetch_block_receipts_no_session w3 n db :
  run (_find_or_fetch_block_receipts w3 n None) db =
    Outcome (fetched_receipts w3 n) db [Eth_get_block_receipts n].
Proof. apply run_fetch_block_receipts. Qed.

Lemma run_find_or_fetch_block_traces_no_session w3 n db :
  run (_find_or_fetch_block_traces w3 n None) db =
    Outcome (fetched_traces w3 n) db [Eth_trace_block n].
Proof. apply run_fetch_block_traces. Qed.

Lemma issued_find_or_fetch_block_receipts w3 n sess db :
  issued (run (_find_or_fetch_block_receipts w3 n sess) db)
    ⊆ [Select_block_receipts n; Eth_get_block_receipts n].
Proof.
  destruct sess as [s|].
  - rewrite run_find_or_fetch_block_receipts_session.
    destruct (block_receipts db !! n); simpl; set_solver.
  - rewrite run_find_or_fetch_block_receipts_no_session. simpl. set_solver.
Qed.

Lemma issued_find_or_fetch_block_traces w3 n sess db :
  issued (run (_find_or_fetch_block_traces w3 n sess) db)
    ⊆ [Select_block_traces n; Eth_trace_block n].
Proof.
  destruct sess as [s|].
  - rewrite run_find_or_fetch_block_traces_session.
    destruct (block_traces db !! n); simpl; set_solver.
  - rewrite run_find_or_fetch_block_traces_no_session. simpl. set_solver.
Qed.

Lemma issued_create_from_block_number w3 n sess db :
  issued (run (create_from_block_number w3 n sess) db) =
    issued (run (_find_or_fetch_block w3 n sess) db)
    ++ issued (run (_find_or_fetch_block_receipts w3 n sess) db)
    ++ issued (run (_find_or_fetch_block_traces w3 n sess) db).
Proof. by rewrite run_create_from_block_number. Qed.

(** A raising lookup makes the join raise; a returning join means three
    returning lookups. *)
Lemma returned_create_from_block_number_Ok w3 n sess db b :
  returned (run (create_from_block_number w3 n sess) db) = Ok b ↔
  ∃ header rs trs,
    returned (run (_find_or_fetch_block w3 n sess) db) = Ok header
    ∧ returned (run (_find_or_fetch_block_receipts w3 n sess) db) = Ok rs
    ∧ returned (run (_find_or_fetch_block_traces w3 n sess) db) = Ok trs
    ∧ assemble n header rs trs = Ok b.
Proof.
  rewrite run_create_from_block_number. simpl.
  destruct (returned (run (_find_or_fetch_block w3 n sess) db)) as [h|],
    (returned (run (_find_or_fetch_block_receipts w3 n sess) db)) as [rs|],
    (returned (run (_find_or_fetch_block_traces w3 n sess) db)) as [trs|];
    split; try done; try (by intros (? & ? & ? & ? & ? & ? & ?)).
  - intros Hb. by exists h, rs, trs.
  - by intros (? & ? & ? & [= <-] & [= <-] & [= <-] & ?).
Qed.

Lemma assemble_Ok n header rs trs b :
  assemble n header rs trs = Ok b →
  block_number b = n ∧ block_timestamp b = header.1
  ∧ base_fee_per_gas b = header.2 ∧ receipts b = rs ∧ traces b = trs
  ∧ _get_miner_address_from_traces trs = Ok (miner b).
Proof.
  unfold assemble.
  destruct (_get_miner_address_from_traces trs); simpl; [|done].
  by intros [= <-].
Qed.

(** C1: with a trace database configured and a cached header row whose
    timestamp is not zero, [create_from_block_number] never calls the node's
    header endpoint, the header lookup returns the cached pair, and the
    block that is built carries the cached timestamp and base fee unchanged,
    at every height. *)
Theorem cached_header_is_used_without_fetch w3 n s db ts bf :
  blocks db !! n = Some (ts, bf) →
  ts ≠ 0 →
  let o := run (create_from_block_number w3 n (Some s)) db in
  run (_find_or_fetch_block w3 n (Some s)) db
    = Outcome (Ok (ts, bf)) db [Select_blocks n]
  ∧ (∀ m, Eth_get_block m ∉ issued o)
  ∧ (∀ rs trs miner_address,
       returned (run (_find_or_fetch_block_receipts w3 n (Some s)) db) = Ok rs →
       returned (run (_find_or_fetch_block_traces w3 n (Some s)) db) = Ok trs →
       _get_miner_address_from_traces trs = Ok miner_address →
       returned o = Ok {| block_number := n;
                          block_timestamp := ts;
                          miner := miner_address;
                          base_fee_per_gas := bf;
                          traces := trs;
                          receipts := rs |})
  ∧ (∀ b, returned o = Ok b →
          block_timestamp b = ts ∧ base_fee_per_gas b = bf).
Proof.
  intros Hrow Hts o.
  assert (run (_find_or_fetch_block w3 n (Some s)) db
          = Outcome (Ok (ts, bf)) db [Select_blocks n]) as Hheader.
  { rewrite run_find_or_fetch_block_session, Hrow. simpl.
    by rewrite decide_True. }
  split_and!.
  - done.
  - intros m Hin. unfold o in Hin.
    rewrite issued_create_from_block_number, Hheader in Hin.
    cbn [issued] in Hin. rewrite !elem_of_app in Hin.
    destruct Hin as [Hin|[Hin|Hin]]; [by one_of_calls Hin| |].
    + apply issued_find_or_fetch_block_receipts in Hin. by one_of_calls Hin.
    + apply issued_find_or_fetch_block_traces in Hin. by one_of_calls Hin.
  - intros rs trs miner_address Hrs Htrs Hminer. unfold o.
    rewrite run_create_from_block_number, Hheader, Hrs, Htrs. simpl.
    unfold assemble. by rewrite Hminer.
  - intros b Hb. unfold o in Hb.
    apply returned_create_from_block_number_Ok
      in Hb as (header & rs & trs & Hh & _ & _ & Hb).
    rewrite Hheader in Hh. simpl in Hh. injection Hh as <-.
    by apply assemble_Ok in Hb as (_ & -> & -> & _).
Qed.

End properties.

(** ** Cache hits and misses *)

Section cache_policy.
Context `{Schemas}.

(** C2: a cached empty list of receipts (of traces) is the result of the
    receipts (traces) lookup, with the database read as the only call; with
    a session configured the node's endpoint for that kind is called exactly
    when the table has no row for the block; and the block that is built
    carries the cached empty list. *)
Theorem cached_empty_list_is_a_hit w3 n s db :
  (block_receipts db !! n = Some [] →
     run (_find_or_fetch_block_receipts w3 n (Some s)) db
       = Outcome (Ok []) db [Select_block_receipts n])
  ∧ (block_traces db !! n = Some [] →
     run (_find_or_fetch_block_traces w3 n (Some s)) db
       = Outcome (Ok []) db [Select_block_traces n])
  ∧ (Eth_get_block_receipts n
       ∈ issued (run (_find_or_fetch_block_receipts w3 n (Some s)) db)
     ↔ block_receipts db !! n = None)
  ∧ (Eth_trace_block n
       ∈ issued (run (_find_or_fetch_block_traces w3 n (Some s)) db)
     ↔ block_traces db !! n = None)
  ∧ (block_receipts db !! n = Some [] →
     let o := run (create_from_block_number w3 n (Some s)) db in
     (∀ m, Eth_get_block_receipts m ∉ issued o)
     ∧ (∀ b, returned o = Ok b → receipts b = []))
  ∧ (block_traces db !! n = Some [] →
     let o := run (create_from_block_number w3 n (Some s)) db in
     (∀ m, Eth_trace_block m ∉ issued o)
     ∧ (∀ b, returned o = Ok b → traces b = [])).
Proof.
  pose proof (issued_find_or_fetch_block w3 n (Some s) db) as Hh.
  pose proof (issued_find_or_fetch_block_receipts w3 n (Some s) db) as Hr.
  pose proof (issued_find_or_fetch_block_traces w3 n (Some s) db) as Ht.
  assert (∀ rs, block_receipts db !! n = Some rs →
            run (_find_or_fetch_block_receipts w3 n (Some s)) db
            = Outcome (comprehension Receipt_kwargs rs) db
                      [Select_block_receipts n]) as Hrs.
  { intros rs Hrow. by rewrite run_find_or_fetch_block_receipts_session, Hrow. }
  assert (∀ trs, block_traces db !! n = Some trs →
            run (_find_or_fetch_block_traces w3 n (Some s)) db
            = Outcome (comprehension Trace_kwargs trs) db
                      [Select_block_traces n]) as Hts.
  { intros trs Hrow. by rewrite run_find_or_fetch_block_traces_session, Hrow. }
  split_and!.
  - intros Hrow. by rewrite (Hrs _ Hrow).
  - intros Hrow. by rewrite (Hts _ Hrow).
  - rewrite run_find_or_fetch_block_receipts_session.
    destruct (block_receipts db !! n); simpl.
    + split; [|done]. intros Hin. by one_of_calls Hin.
    + split; [done|]. intros _. apply elem_of_cons. right. by left.
  - rewrite run_find_or_fetch_block_traces_session.
    destruct (block_traces db !! n); simpl.
    + split; [|done]. intros Hin. by one_of_calls Hin.
    + split; [done|]. intros _. apply elem_of_cons. right. by left.
  - intros Hrow o. unfold o. split.
    + intros m Hin. rewrite issued_create_from_block_number in Hin.
      rewrite (Hrs _ Hrow), !elem_of_app in Hin. cbn [issued] in Hin.
      destruct Hin as [Hin|[Hin|Hin]].
      * apply Hh in Hin. by one_of_calls Hin.
      * by one_of_calls Hin.
      * apply Ht in Hin. by one_of_calls Hin.
    + intros b (hd & rs & trs & _ & Hb & _ & Hasm)%returned_create_from_block_number_Ok.
      rewrite (Hrs _ Hrow) in Hb. simpl in Hb. injection Hb as <-.
      by apply assemble_Ok in Hasm as (_ & _ & _ & -> & _).
  - intros Hrow o. unfold o. split.
    + intros m Hin. rewrite issued_create_from_block_number in Hin.
      rewrite (Hts _ Hrow), !elem_of_app in Hin. cbn [issued] in Hin.
      destruct Hin as [Hin|[Hin|Hin]].
      * apply Hh in Hin. by one_of_calls Hin.
      * apply Hr in Hin. by one_of_calls Hin.
      * by one_of_calls Hin.
    + intros b (hd & rs & trs & _ & _ & Hb & Hasm)%returned_create_from_block_number_Ok.
      rewrite (Hts _ Hrow) in Hb. simpl in Hb. injection Hb as <-.
      by apply assemble_Ok in Hasm as (_ & _ & _ & _ & -> & _).
Qed.

(** C3: [_find_block] answers [(0, 0)] when the table has no row, and the
    header lookup treats every answer with a zero timestamp, the sentinel
    or a stored row alike, as a miss: it reads the database, calls the
    node's header endpoint and returns what [_fetch_block] returns. *)
Theorem zero_timestamp_header_is_a_miss w3 n s db :
  (blocks db !! n = None →
     returned (run (_find_block s n) db) = Ok (0, 0))
  ∧ (∀ base_fee, blocks db !! n = Some (0, base_fee) →
     returned (run (_find_block s n) db) = Ok (0, base_fee))
  ∧ ((blocks db !! n = None ∨ ∃ base_fee, blocks db !! n = Some (0, base_fee)) →
     run (_find_or_fetch_block w3 n (Some s)) db
       = Outcome (returned (run (_fetch_block w3 n) db)) db
                 [Select_blocks n; Eth_get_block n]).
Proof.
  split_and!.
  - intros Hrow. by rewrite run_find_block, Hrow.
  - intros base_fee Hrow. by rewrite run_find_block, Hrow.
  - intros Hmiss.
    rewrite run_find_or_fetch_block_session, run_fetch_block.
    by destruct Hmiss as [->|[base_fee ->]].
Qed.

(** C4: when the header is fetched from the node (no session, or a miss in
    the trace database) and the node's answer has a timestamp, the base fee
    of a block below height 12965000 is 0 whatever the node reports, and the
    base fee of a block at or above that height is the node's
    [baseFeePerGas] field; the block that is built carries that value. *)
Theorem fetched_base_fee_follows_height_rule w3 n sess db block_json timestamp :
  get_block w3 n = Ok block_json →
  block_json !! "timestamp" = Some timestamp →
  (sess = None ∨ blocks db !! n = None
   ∨ ∃ base_fee, blocks db !! n = Some (0, base_fee)) →
  let header := returned (run (_find_or_fetch_block w3 n sess) db) in
  let o := run (create_from_block_number w3 n sess) db in
  (n < 12965000 → header = Ok (timestamp, 0))
  ∧ (12965000 ≤ n → ∀ base_fee,
       block_json !! "baseFeePerGas" = Some base_fee →
       header = Ok (timestamp, base_fee))
  ∧ (n < 12965000 → ∀ b, returned o = Ok b → base_fee_per_gas b = 0)
  ∧ (12965000 ≤ n → ∀ base_fee b,
       block_json !! "baseFeePerGas" = Some base_fee →
       returned o = Ok b → base_fee_per_gas b = base_fee).
Proof.
  intros Hnode Hts Hfresh header o.
  assert (header = fetched_header w3 n) as Hheader.
  { unfold header. destruct Hfresh as [->|Hmiss].
    - by rewrite run_find_or_fetch_block_no_session.
    - destruct sess as [s|]; [|by rewrite run_find_or_fetch_block_no_session].
      rewrite run_find_or_fetch_block_session.
      by destruct Hmiss as [->|[base_fee ->]]. }
  assert (n < 12965000 → header = Ok (timestamp, 0)) as Hpre.
  { intros Hn. rewrite Hheader. unfold fetched_header, getitem.
    rewrite Hnode. simpl. rewrite Hts. simpl.
    rewrite decide_False by lia. done. }
  assert (12965000 ≤ n → ∀ base_fee,
            block_json !! "baseFeePerGas" = Some base_fee →
            header = Ok (timestamp, base_fee)) as Hpost.
  { intros Hn base_fee Hfee. rewrite Hheader. unfold fetched_header, getitem.
    rewrite Hnode. simpl. rewrite Hts. simpl.
    rewrite decide_True by lia. by rewrite Hfee. }
  split_and!; [done|done| |].
  - intros Hn b (hd & rs & trs & Hh & _ & _ & Hasm)%returned_create_from_block_number_Ok.
    fold header in Hh. rewrite (Hpre Hn) in Hh. injection Hh as <-.
    by apply assemble_Ok in Hasm as (_ & _ & -> & _).
  - intros Hn base_fee b Hfee
      (hd & rs & trs & Hh & _ & _ & Hasm)%returned_create_from_block_number_Ok.
    fold header in Hh. rewrite (Hpost Hn _ Hfee) in Hh. injection Hh as <-.
    by apply assemble_Ok in Hasm as (_ & _ & -> & _).
Qed.

End cache_policy.

(** ** Failure and frame *)

Section assembly.
Context `{Schemas}.

(** C7: [create_from_block_number] raises as soon as one of the three
    lookups raises, whatever the other two return, and returns a block only
    when all three returned; without a session, a failing node call and a
    raw receipt or trace that does not parse make their lookup raise. *)
Theorem one_failed_lookup_fails_the_assembly w3 n sess db :
  let header := returned (run (_find_or_fetch_block w3 n sess) db) in
  let rs := returned (run (_find_or_fetch_block_receipts w3 n sess) db) in
  let trs := returned (run (_find_or_fetch_block_traces w3 n sess) db) in
  let o := run (create_from_block_number w3 n sess) db in
  (is_Ok header && is_Ok rs && is_Ok trs = false →
     is_Ok (returned o) = false)
  ∧ (∀ b, returned o = Ok b →
       is_Ok header && is_Ok rs && is_Ok trs = true)
  ∧ (∀ e, get_block w3 n = Raise e →
       returned (run (_find_or_fetch_block w3 n None) db) = Raise e)
  ∧ (∀ e, get_block_receipts w3 n = Raise e →
       returned (run (_find_or_fetch_block_receipts w3 n None) db) = Raise e)
  ∧ (∀ e, trace_block w3 n = Raise e →
       returned (run (_find_or_fetch_block_traces w3 n None) db) = Raise e)
  ∧ (∀ receipts_json e,
       get_block_receipts w3 n = Ok receipts_json →
       comprehension Receipt_kwargs receipts_json = Raise e →
       returned (run (_find_or_fetch_block_receipts w3 n None) db) = Raise e)
  ∧ (∀ traces_json e,
       trace_block w3 n = Ok traces_json →
       comprehension Trace_kwargs traces_json = Raise e →
       returned (run (_find_or_fetch_block_traces w3 n None) db) = Raise e).
Proof.
  intros header rs trs o. split_and!.
  - unfold o. rewrite run_create_from_block_number. cbn [returned].
    fold header rs trs.
    by destruct header as [[??]|], rs, trs.
  - intros b (hd & r & t & Hh & Hr & Ht & _)%returned_create_from_block_number_Ok.
    unfold header, rs, trs. by rewrite Hh, Hr, Ht.
  - intros e He. rewrite run_find_or_fetch_block_no_session.
    unfold fetched_header. by rewrite He.
  - intros e He. rewrite run_find_or_fetch_block_receipts_no_session.
    unfold fetched_receipts. by rewrite He.
  - intros e He. rewrite run_find_or_fetch_block_traces_no_session.
    unfold fetched_traces. by rewrite He.
  - intros raw e Hraw He. rewrite run_find_or_fetch_block_receipts_no_session.
    unfold fetched_receipts. by rewrite Hraw.
  - intros raw e Hraw He. rewrite run_find_or_fetch_block_traces_no_session.
    unfold fetched_traces. by rewrite Hraw.
Qed.

(** C9: [create_from_block_number] leaves the trace database exactly as it
    found it, whether the lookups hit, miss or raise, and the only calls it
    issues are the three selects and the three node reads for its block. *)
Theorem assembly_leaves_the_cache_unchanged w3 n sess db :
  db_after (run (create_from_block_number w3 n sess) db) = db
  ∧ Forall (λ e, e ∈ block_reads n)
           (issued (run (create_from_block_number w3 n sess) db)).
Proof.
  split; [apply read_only_create_from_block_number|].
  apply Forall_forall. intros e Hin.
  rewrite issued_create_from_block_number, !elem_of_app in Hin.
  unfold block_reads.
  destruct Hin as [Hin|[Hin|Hin]].
  - apply issued_find_or_fetch_block in Hin.
    one_of_calls Hin; subst e; repeat constructor.
  - apply issued_find_or_fetch_block_receipts in Hin.
    one_of_calls Hin; subst e; repeat constructor.
  - apply issued_find_or_fetch_block_traces in Hin.
    one_of_calls Hin; subst e; repeat constructor.
Qed.

End assembly.

(** ** The chain head *)

Lemma hex_digits_None (s : string) (acc : Z) :
  hex_digits acc s = None ↔ ∃ c, c ∈ chars s ∧ hex_digit c = None.
Proof.
  revert acc. induction s as [|c s IH]; intros acc; simpl.
  - split; [done|]. intros (c & Hc & _). by apply elem_of_nil in Hc.
  - destruct (hex_digit c) as [d|] eqn:Hd.
    + rewrite IH. split; intros (c' & Hc' & Hbad).
      * exists c'. split; [by right|done].
      * apply elem_of_cons in Hc' as [->|Hc']; [congruence|by exists c'].
    + split; [|done]. intros _. exists c. split; [by left|done].
Qed.

Lemma hex_to_int_malformed (s : string) :
  malformed_hex s → hex_to_int (JStr s) = Raise ValueError.
Proof.
  unfold malformed_hex, hex_to_int. intros [->|Hbad]; [done|].
  apply (hex_digits_None _ 0) in Hbad.
  destruct (strip_0x s); [done|]. by rewrite Hbad.
Qed.

(** C8: [get_latest_block_number] issues the single request
    [eth_getBlockByNumber("latest", False)] and returns the integer that
    [hex_to_int] decodes from [response["result"]["number"]]; on the
    response [{"result": {"number": "0xa"}}] it returns 10; it raises when
    the request fails, when [number] (or [result]) is absent and when the
    hexadecimal literal is malformed. *)
Theorem latest_block_number_decodes_the_head (p : BaseProvider) (db : TraceDb) :
  let request := [JStr "latest"; JBool false] in
  let o := run (get_latest_block_number p) db in
  issued o = [Rpc_request "eth_getBlockByNumber" request]
  ∧ (∀ response head number,
       make_request p "eth_getBlockByNumber" request = Ok (JDict response) →
       response !! "result" = Some (JDict head) →
       head !! "number" = Some number →
       returned o = hex_to_int number)
  ∧ (make_request p "eth_getBlockByNumber" request
       = Ok (JDict {[ "result" := JDict {[ "number" := JStr "0xa" ]} ]}) →
     returned o = Ok 10)
  ∧ (∀ e, make_request p "eth_getBlockByNumber" request = Raise e →
       returned o = Raise e)
  ∧ (∀ response,
       make_request p "eth_getBlockByNumber" request = Ok (JDict response) →
       response !! "result" = None →
       returned o = Raise (KeyError "result"))
  ∧ (∀ response head,
       make_request p "eth_getBlockByNumber" request = Ok (JDict response) →
       response !! "result" = Some (JDict head) →
       head !! "number" = None →
       returned o = Raise (KeyError "number"))
  ∧ (∀ response head literal,
       make_request p "eth_getBlockByNumber" request = Ok (JDict response) →
       response !! "result" = Some (JDict head) →
       head !! "number" = Some (JStr literal) →
       malformed_hex literal →
       returned o = Raise ValueError).
Proof.
  intros request o.
  assert (o = Outcome
                (latest_block ← make_request p "eth_getBlockByNumber" request;
                 result ← json_getitem latest_block "result";
                 number ← json_getitem result "number";
                 hex_to_int number)
                db [Rpc_request "eth_getBlockByNumber" request]) as ->.
  { unfold o, get_latest_block_number. rewrite run_bind.
    cbn [provider_make_request run returned db_after issued].
    fold request.
    by destruct (make_request p "eth_getBlockByNumber" request). }
  cbn [returned issued].
  assert (∀ response head,
            make_request p "eth_getBlockByNumber" request = Ok (JDict response) →
            response !! "result" = Some (JDict head) →
            (latest_block ← make_request p "eth_getBlockByNumber" request;
             result ← json_getitem latest_block "result";
             number ← json_getitem result "number";
             hex_to_int number)
            = (number ← getitem head "number"; hex_to_int number)) as Hhead.
  { intros response head -> Hres.
    cbn [mbind result_bind json_getitem]. unfold getitem at 1.
    by rewrite Hres. }
  split_and!.
  - done.
  - intros response head number Hp Hres Hnum.
    rewrite (Hhead _ _ Hp Hres). unfold getitem. by rewrite Hnum.
  - intros Hp. by rewrite Hp.
  - intros e ->. done.
  - intros response -> Hres.
    cbn [mbind result_bind json_getitem]. unfold getitem. by rewrite Hres.
  - intros response head Hp Hres Hnum.
    rewrite (Hhead _ _ Hp Hres). unfold getitem. by rewrite Hnum.
  - intros response head literal Hp Hres Hnum Hbad.
    rewrite (Hhead _ _ Hp Hres). unfold getitem. rewrite Hnum.
    by apply hex_to_int_malformed.
Qed.

(** * Scenarios *)

(** The scenario of the specification: only the header of block 12970000
    is cached; receipts and traces come from the node. *)
Lemma cached_header_scenario :
  blocks Fixtures.header_only_db !! 12970000
    = Some (1622547800, 1000000000)
  ∧ run (_find_or_fetch_block Fixtures.node 12970000 (Some session))
        Fixtures.header_only_db
    = Outcome (Ok (1622547800, 1000000000)) Fixtures.header_only_db
              [Select_blocks 12970000]
  ∧ issued (run (create_from_block_number (H:=Fixtures.schemas)
                   Fixtures.node 12970000 (Some session))
                Fixtures.header_only_db)
    = [Select_blocks 12970000;
       Select_block_receipts 12970000; Eth_get_block_receipts 12970000;
       Select_block_traces 12970000; Eth_trace_block 12970000]
  ∧ returned (run (create_from_block_number (H:=Fixtures.schemas)
                     Fixtures.node 12970000 (Some session))
                  Fixtures.header_only_db)
    = Ok (Build_Block Fixtures.schemas
            12970000 1622547800 (Some "0xbeef") 1000000000
            [Fixtures.tx "0xaa"; Fixtures.reward_trace "0xbeef"]
            [{| Fixtures.receipt_transaction_hash := "0xaa";
                Fixtures.gas_used := 21000 |}]).
Proof.
  split; [reflexivity|].
  destruct (cached_header_is_used_without_fetch (H:=Fixtures.schemas)
              Fixtures.node 12970000 session Fixtures.header_only_db
              1622547800 1000000000 eq_refl)
    as (Hheader & _ & Hblock & _); [discriminate|].
  split; [exact Hheader|].
  split; [vm_compute; reflexivity|].
  apply Hblock; vm_compute; reflexivity.
Defined.

(** Block 100 is cached with empty lists: both lookups stop at the
    database. *)
Lemma cached_empty_lists_scenario :
  run (_find_or_fetch_block_receipts (H:=Fixtures.schemas)
         Fixtures.node 100 (Some session)) Fixtures.zero_db
    = Outcome (Ok []) Fixtures.zero_db [Select_block_receipts 100]
  ∧ run (_find_or_fetch_block_traces (H:=Fixtures.schemas)
           Fixtures.node 100 (Some session)) Fixtures.zero_db
    = Outcome (Ok []) Fixtures.zero_db [Select_block_traces 100].
Proof.
  destruct (cached_empty_list_is_a_hit (H:=Fixtures.schemas)
              Fixtures.node 100 session Fixtures.zero_db)
    as (Hreceipts & Htraces & _).
  split; [apply Hreceipts|apply Htraces]; reflexivity.
Defined.

(** Block 100 is cached with timestamp 0: the header comes from the node. *)
Lemma zero_timestamp_scenario :
  blocks Fixtures.zero_db !! 100 = Some (0, 5)
  ∧ run (_find_or_fetch_block Fixtures.node 100 (Some session))
        Fixtures.zero_db
    = Outcome (Ok (1600000000, 0)) Fixtures.zero_db
              [Select_blocks 100; Eth_get_block 100].
Proof.
  split; [reflexivity|].
  destruct (zero_timestamp_header_is_a_miss
              Fixtures.node 100 session Fixtures.zero_db)
    as (_ & _ & Hmiss).
  rewrite Hmiss; [reflexivity|].
  right. exists 5. reflexivity.
Defined.

(** No session: block 12964999 gets base fee 0 although the node reports 7,
    and block 12965000 gets the 7. *)
Lemma height_rule_scenario :
  returned (run (_find_or_fetch_block Fixtures.node 12964999 None)
                Fixtures.empty_db) = Ok (1600000000, 0)
  ∧ returned (run (_find_or_fetch_block Fixtures.node 12965000 None)
                  Fixtures.empty_db) = Ok (1600000000, 7).
Proof.
  split.
  - destruct (fetched_base_fee_follows_height_rule (H:=Fixtures.schemas)
                Fixtures.node 12964999 None Fixtures.empty_db
                _ 1600000000 eq_refl eq_refl (or_introl eq_refl))
      as (Hbelow & _).
    apply Hbelow. reflexivity.
  - destruct (fetched_base_fee_follows_height_rule (H:=Fixtures.schemas)
                Fixtures.node 12965000 None Fixtures.empty_db
                _ 1600000000 eq_refl eq_refl (or_introl eq_refl))
      as (_ & Habove & _).
    apply Habove; [discriminate|reflexivity].
Defined.

(** Two reward traces: the first one's author is the miner; no reward
    trace: no miner. *)
Lemma first_reward_scenario :
  _get_miner_address_from_traces
    [Fixtures.tx "A"; Fixtures.reward_trace "0x01"; Fixtures.tx "B";
     Fixtures.reward_trace "0x02"] = Ok (Some "0x01")
  ∧ _get_miner_address_from_traces [Fixtures.tx "A"; Fixtures.tx "B"]
    = Ok None.
Proof.
  split.
  - apply (proj1 (miner_is_first_reward_author _)
             [Fixtures.tx "A"] (Fixtures.reward_trace "0x01")
             [Fixtures.tx "B"; Fixtures.reward_trace "0x02"] "0x01").
    + reflexivity.
    + repeat constructor. discriminate.
    + reflexivity.
    + reflexivity.
  - apply (proj2 (miner_is_first_reward_author _)).
    repeat constructor; discriminate.
Defined.

(** A reward trace without [author] ahead of a well-formed one. *)
Lemma missing_author_scenario :
  _get_miner_address_from_traces
    [Fixtures.tx "A"; Fixtures.reward_without_author;
     Fixtures.reward_trace "0x02"] = Raise (KeyError "author").
Proof.
  apply (proj1 (proj1 (miner_raises_iff_author_missing _))).
  exists [Fixtures.tx "A"], Fixtures.reward_without_author,
    [Fixtures.reward_trace "0x02"].
  split; [reflexivity|].
  split; [repeat constructor; discriminate|].
  split; reflexivity.
Defined.

(** Header and receipts are fetched, the trace endpoint fails: no block. *)
Lemma failing_traces_scenario :
  is_Ok (returned (run (_find_or_fetch_block Fixtures.node_without_traces
                          100 None) Fixtures.empty_db)) = true
  ∧ is_Ok (returned (run (_find_or_fetch_block_receipts (H:=Fixtures.schemas)
                            Fixtures.node_without_traces 100 None)
                         Fixtures.empty_db)) = true
  ∧ is_Ok (returned (run (create_from_block_number (H:=Fixtures.schemas)
                            Fixtures.node_without_traces 100 None)
                         Fixtures.empty_db)) = false.
Proof.
  split; [reflexivity|]. split; [reflexivity|].
  apply (proj1 (one_failed_lookup_fails_the_assembly (H:=Fixtures.schemas)
                  Fixtures.node_without_traces 100 None Fixtures.empty_db)).
  reflexivity.
Defined.

(** The response of the specification decodes to 10; a literal with a
    character outside the hexadecimal digits is refused. *)
Lemma chain_head_scenario :
  returned (run (get_latest_block_number
                   (Fixtures.provider (Ok Fixtures.head_response)))
                Fixtures.empty_db) = Ok 10
  ∧ returned (run (get_latest_block_number
                     (Fixtures.provider
                        (Ok (JDict {[ "result" :=
                                        JDict {[ "number" := JStr "0xzz" ]} ]}))))
                  Fixtures.empty_db) = Raise ValueError.
Proof.
  split.
  - apply (proj1 (proj2 (proj2 (latest_block_number_decodes_the_head
                                  _ Fixtures.empty_db)))).
    reflexivity.
  - destruct (latest_block_number_decodes_the_head
                (Fixtures.provider
                   (Ok (JDict {[ "result" :=
                                   JDict {[ "number" := JStr "0xzz" ]} ]})))
                Fixtures.empty_db)
      as (_ & _ & _ & _ & _ & _ & Hbad).
    apply (Hbad _ _ "0xzz" eq_refl eq_refl eq_refl).
    right. exists "z"%char. split; [|reflexivity].
    simpl. left.
Defined.

(** * Further properties of the module *)

(** ** List comprehensions *)

Lemma comprehension_Ok {A B} (f : A → result B) (xs : list A) (ys : list B) :
  comprehension f xs = Ok ys ↔ Forall2 (λ x y, f x = Ok y) xs ys.
Proof.
  revert ys. induction xs as [|x xs IH]; intros ys; simpl.
  - split.
    + intros [= <-]. constructor.
    + intros Hall. by apply Forall2_nil_inv_l in Hall as ->.
  - destruct (f x) as [y|e] eqn:Hx; simpl.
    + destruct (comprehension f xs) as [ys'|e] eqn:Hxs; simpl.
      * split.
        -- intros [= <-]. constructor; [done|]. by apply IH.
        -- intros (y' & ys'' & Hy & Hys & ->)%Forall2_cons_inv_l.
           apply IH in Hys. rewrite Hx in Hy.
           injection Hy as ->. by injection Hys as ->.
      * split; [done|].
        intros (y' & ys'' & _ & Hys & ->)%Forall2_cons_inv_l.
        by apply IH in Hys.
    + split; [done|].
      intros (y' & ys'' & Hy & _ & ->)%Forall2_cons_inv_l. congruence.
Qed.

Lemma comprehension_first_failure {A B} (f : A → result B)
    (before : list A) (bad : A) (after : list A) (e : exception) :
  Forall (λ x, is_Ok (f x) = true) before →
  f bad = Raise e →
  comprehension f (before ++ bad :: after) = Raise e.
Proof.
  intros Hbefore Hbad.
  induction Hbefore as [|x before Hx _ IH]; simpl.
  - by rewrite Hbad.
  - destruct (f x); [|done]. simpl. by rewrite IH.
Qed.

Lemma comprehension_Ok_nil {A B} (f : A → result B) (xs : list A) :
  comprehension f xs = Ok [] ↔ xs = [].
Proof.
  rewrite comprehension_Ok. split.
  - apply Forall2_nil_inv_r.
  - intros ->. constructor.
Qed.

(** ** The header lookup, hit and miss *)

Lemma run_find_or_fetch_block_hit w3 n s db ts bf :
  blocks db !! n = Some (ts, bf) →
  ts ≠ 0 →
  run (_find_or_fetch_block w3 n (Some s)) db
    = Outcome (Ok (ts, bf)) db [Select_blocks n].
Proof.
  intros Hrow Hts. rewrite run_find_or_fetch_block_session, Hrow. simpl.
  by rewrite decide_True.
Qed.

Lemma run_find_or_fetch_block_miss w3 n s db :
  (blocks db !! n = None ∨ ∃ bf, blocks db !! n = Some (0, bf)) →
  run (_find_or_fetch_block w3 n (Some s)) db
    = Outcome (fetched_header w3 n) db [Select_blocks n; Eth_get_block n].
Proof.
  intros Hmiss. rewrite run_find_or_fetch_block_session.
  by destruct Hmiss as [->|[bf ->]].
Qed.

(** ** The header fetch *)

(** X1: a header without [timestamp] raises [KeyError timestamp] at every
    height; with a timestamp, a header without [baseFeePerGas] raises
    [KeyError baseFeePerGas] from height 12965000 on and is accepted below
    it; a failing node call surfaces unchanged. *)
Theorem fetch_block_missing_fields w3 n db :
  (∀ e, get_block w3 n = Raise e →
     returned (run (_fetch_block w3 n) db) = Raise e)
  ∧ (∀ block_json,
       get_block w3 n = Ok block_json →
       block_json !! "timestamp" = None →
       returned (run (_fetch_block w3 n) db) = Raise (KeyError "timestamp"))
  ∧ (∀ block_json timestamp,
       get_block w3 n = Ok block_json →
       block_json !! "timestamp" = Some timestamp →
       block_json !! "baseFeePerGas" = None →
       returned (run (_fetch_block w3 n) db)
         = if decide (12965000 ≤ n) then Raise (KeyError "baseFeePerGas")
           else Ok (timestamp, 0)).
Proof.
  rewrite run_fetch_block. cbn [returned]. unfold fetched_header, getitem.
  split_and!.
  - by intros e ->.
  - intros block_json -> Hts. simpl. by rewrite Hts.
  - intros block_json timestamp -> Hts Hfee. simpl. rewrite Hts. simpl.
    destruct (decide (12965000 ≤ n)) as [Hn|Hn].
    + rewrite decide_True by lia. by rewrite Hfee.
    + by rewrite decide_False by lia.
Qed.

Section further_assembly.
Context `{Schemas}.

(** ** Which calls are issued *)

(** X2: without a session the assembly issues exactly the three node calls,
    header, receipts, traces, in that order, reads no table, and its result
    does not depend on the database. *)
Theorem without_session_only_the_node_is_called w3 n db db' :
  issued (run (create_from_block_number w3 n None) db)
    = [Eth_get_block n; Eth_get_block_receipts n; Eth_trace_block n]
  ∧ returned (run (create_from_block_number w3 n None) db)
    = returned (run (create_from_block_number w3 n None) db').
Proof.
  rewrite !run_create_from_block_number.
  rewrite !run_find_or_fetch_block_no_session,
    !run_find_or_fetch_block_receipts_no_session,
    !run_find_or_fetch_block_traces_no_session.
  done.
Qed.

(** X3: when the header (with a timestamp that is not zero), the receipts
    and the traces of a block are all cached, the assembly issues the three
    selects and nothing else, and its outcome is the same whatever node it
    is given. *)
Theorem fully_cached_block_never_calls_the_node
    w3 w3' n s db ts bf receipts_json traces_json :
  blocks db !! n = Some (ts, bf) →
  ts ≠ 0 →
  block_receipts db !! n = Some receipts_json →
  block_traces db !! n = Some traces_json →
  issued (run (create_from_block_number w3 n (Some s)) db)
    = [Select_blocks n; Select_block_receipts n; Select_block_traces n]
  ∧ run (create_from_block_number w3 n (Some s)) db
    = run (create_from_block_number w3' n (Some s)) db.
Proof.
  intros Hh Hts Hr Ht.
  rewrite !run_create_from_block_number.
  rewrite !(run_find_or_fetch_block_hit _ _ _ _ _ _ Hh Hts),
    !run_find_or_fetch_block_receipts_session,
    !run_find_or_fetch_block_traces_session.
  by rewrite Hr, Ht.
Qed.

(** X4: with a session whose three tables have no row for the block, the
    assembly returns what it returns without a session, after issuing each
    select followed by its node call. *)
Theorem uncached_block_is_fetched_as_without_session w3 n s db :
  blocks db !! n = None →
  block_receipts db !! n = None →
  block_traces db !! n = None →
  returned (run (create_from_block_number w3 n (Some s)) db)
    = returned (run (create_from_block_number w3 n None) db)
  ∧ issued (run (create_from_block_number w3 n (Some s)) db) = block_reads n.
Proof.
  intros Hh Hr Ht.
  rewrite !run_create_from_block_number.
  rewrite run_find_or_fetch_block_miss by (by left).
  rewrite run_find_or_fetch_block_receipts_session,
    run_find_or_fetch_block_traces_session,
    run_find_or_fetch_block_no_session,
    run_find_or_fetch_block_receipts_no_session,
    run_find_or_fetch_block_traces_no_session.
  by rewrite Hr, Ht.
Qed.

End further_assembly.

(** ** The database lookups of receipts and traces *)

Section further_lookups.
Context `{Schemas}.

Lemma run_find_block_receipts s n db :
  run (_find_block_receipts s n) db =
    Outcome (match block_receipts db !! n with
             | Some receipts_json =>
                 match comprehension Receipt_kwargs receipts_json with
                 | Ok rs => Ok (Some rs)
                 | Raise e => Raise e
                 end
             | None => Ok None
             end) db [Select_block_receipts n].
Proof.
  unfold _find_block_receipts. rewrite run_bind.
  cbn [select_block_receipts run returned db_after issued].
  destruct (block_receipts db !! n) as [raw|]; [|done].
  rewrite run_bind, run_lift. cbn [returned db_after issued].
  by destruct (comprehension Receipt_kwargs raw).
Qed.

Lemma run_find_block_traces s n db :
  run (_find_block_traces s n) db =
    Outcome (match block_traces db !! n with
             | Some traces_json =>
                 match comprehension Trace_kwargs traces_json with
                 | Ok trs => Ok (Some trs)
                 | Raise e => Raise e
                 end
             | None => Ok None
             end) db [Select_block_traces n].
Proof.
  unfold _find_block_traces. rewrite run_bind.
  cbn [select_block_traces run returned db_after issued].
  destruct (block_traces db !! n) as [raw|]; [|done].
  rewrite run_bind, run_lift. cbn [returned db_after issued].
  by destruct (comprehension Trace_kwargs raw).
Qed.

(** X5: [_find_block_receipts] and [_find_block_traces] tell a missing row
    from an empty one: they return [None] exactly when the table has no row
    for the block, and [Some []] exactly when the stored list is empty. *)
Theorem found_empty_differs_from_not_found s n db :
  (returned (run (_find_block_receipts s n) db) = Ok None
     ↔ block_receipts db !! n = None)
  ∧ (returned (run (_find_block_receipts s n) db) = Ok (Some [])
     ↔ block_receipts db !! n = Some [])
  ∧ (returned (run (_find_block_traces s n) db) = Ok None
     ↔ block_traces db !! n = None)
  ∧ (returned (run (_find_block_traces s n) db) = Ok (Some [])
     ↔ block_traces db !! n = Some []).
Proof.
  rewrite run_find_block_receipts, run_find_block_traces. cbn [returned].
  split_and!.
  - destruct (block_receipts db !! n) as [raw|]; [|done].
    by destruct (comprehension Receipt_kwargs raw).
  - destruct (block_receipts db !! n) as [raw|]; [|done].
    destruct (comprehension Receipt_kwargs raw) as [rs|e] eqn:Hraw.
    + split.
      * intros [= ->]. by apply comprehension_Ok_nil in Hraw as ->.
      * intros [= ->]. simpl in Hraw. by injection Hraw as <-.
    + split; [done|]. intros [= ->]. done.
  - destruct (block_traces db !! n) as [raw|]; [|done].
    by destruct (comprehension Trace_kwargs raw).
  - destruct (block_traces db !! n) as [raw|]; [|done].
    destruct (comprehension Trace_kwargs raw) as [trs|e] eqn:Hraw.
    + split.
      * intros [= ->]. by apply comprehension_Ok_nil in Hraw as ->.
      * intros [= ->]. simpl in Hraw. by injection Hraw as <-.
    + split; [done|]. intros [= ->]. done.
Qed.

(** X6: a cached row that does not parse is not treated as a miss: the
    lookup raises the parser's exception after the select alone, the node
    is not asked, and the assembly raises. *)
Theorem unparsable_cached_row_is_not_refetched w3 n s db :
  (∀ receipts_json e,
     block_receipts db !! n = Some receipts_json →
     comprehension Receipt_kwargs receipts_json = Raise e →
     run (_find_or_fetch_block_receipts w3 n (Some s)) db
       = Outcome (Raise e) db [Select_block_receipts n]
     ∧ is_Ok (returned (run (create_from_block_number w3 n (Some s)) db))
       = false)
  ∧ (∀ traces_json e,
       block_traces db !! n = Some traces_json →
       comprehension Trace_kwargs traces_json = Raise e →
       run (_find_or_fetch_block_traces w3 n (Some s)) db
         = Outcome (Raise e) db [Select_block_traces n]
       ∧ is_Ok (returned (run (create_from_block_number w3 n (Some s)) db))
         = false).
Proof.
  split.
  - intros raw e Hrow Hraw.
    assert (run (_find_or_fetch_block_receipts w3 n (Some s)) db
            = Outcome (Raise e) db [Select_block_receipts n]) as Hrun.
    { by rewrite run_find_or_fetch_block_receipts_session, Hrow, Hraw. }
    split; [done|].
    rewrite run_create_from_block_number, Hrun. cbn [returned].
    by destruct (returned (run (_find_or_fetch_block w3 n (Some s)) db)).
  - intros raw e Hrow Hraw.
    assert (run (_find_or_fetch_block_traces w3 n (Some s)) db
            = Outcome (Raise e) db [Select_block_traces n]) as Hrun.
    { by rewrite run_find_or_fetch_block_traces_session, Hrow, Hraw. }
    split; [done|].
    rewrite run_create_from_block_number, Hrun. cbn [returned].
    by destruct (returned (run (_find_or_fetch_block w3 n (Some s)) db)),
      (returned (run (_find_or_fetch_block_receipts w3 n (Some s)) db)).
Qed.

(** X7: [_fetch_block_receipts] and [_fetch_block_traces] return a list
    exactly when the node answered and every raw record parsed, and the
    list then holds the parsed records one for one, in the node's order. *)
Theorem fetched_records_parse_one_for_one w3 n db :
  (∀ rs, returned (run (_fetch_block_receipts w3 n) db) = Ok rs ↔
     ∃ receipts_json,
       get_block_receipts w3 n = Ok receipts_json
       ∧ Forall2 (λ raw r, Receipt_kwargs raw = Ok r) receipts_json rs)
  ∧ (∀ trs, returned (run (_fetch_block_traces w3 n) db) = Ok trs ↔
       ∃ traces_json,
         trace_block w3 n = Ok traces_json
         ∧ Forall2 (λ raw t, Trace_kwargs raw = Ok t) traces_json trs).
Proof.
  rewrite run_fetch_block_receipts, run_fetch_block_traces. cbn [returned].
  unfold fetched_receipts, fetched_traces. split.
  - intros rs. destruct (get_block_receipts w3 n) as [raw|e]; simpl.
    + rewrite comprehension_Ok. split.
      * intros Hall. by exists raw.
      * by intros (raw' & [= <-] & Hall).
    + split; [done|]. by intros (raw' & ? & _).
  - intros trs. destruct (trace_block w3 n) as [raw|e]; simpl.
    + rewrite comprehension_Ok. split.
      * intros Hall. by exists raw.
      * by intros (raw' & [= <-] & Hall).
    + split; [done|]. by intros (raw' & ? & _).
Qed.

(** X8: when the node's list holds a record that does not parse, the fetch
    raises the exception of the first such record, whatever follows it. *)
Theorem first_unparsable_record_surfaces w3 n db before bad after e :
  (get_block_receipts w3 n = Ok (before ++ bad :: after) →
   Forall (λ raw, is_Ok (Receipt_kwargs raw) = true) before →
   Receipt_kwargs bad = Raise e →
   returned (run (_fetch_block_receipts w3 n) db) = Raise e)
  ∧ (trace_block w3 n = Ok (before ++ bad :: after) →
     Forall (λ raw, is_Ok (Trace_kwargs raw) = true) before →
     Trace_kwargs bad = Raise e →
     returned (run (_fetch_block_traces w3 n) db) = Raise e).
Proof.
  rewrite run_fetch_block_receipts, run_fetch_block_traces. cbn [returned].
  unfold fetched_receipts, fetched_traces. split.
  - intros -> Hbefore Hbad. simpl. by apply comprehension_first_failure.
  - intros -> Hbefore Hbad. simpl. by apply comprehension_first_failure.
Qed.

End further_lookups.

(** ** The assembled block *)

Section further_block.
Context `{Schemas}.

(** X9: a block returned by [create_from_block_number] carries the
    requested number, the header, receipts and traces that the three
    lookups returned, and as miner the address resolved from its own
    traces. *)
Theorem returned_block_is_consistent w3 n sess db b :
  returned (run (create_from_block_number w3 n sess) db) = Ok b →
  block_number b = n
  ∧ returned (run (_find_or_fetch_block w3 n sess) db)
    = Ok (block_timestamp b, base_fee_per_gas b)
  ∧ returned (run (_find_or_fetch_block_receipts w3 n sess) db)
    = Ok (receipts b)
  ∧ returned (run (_find_or_fetch_block_traces w3 n sess) db)
    = Ok (traces b)
  ∧ _get_miner_address_from_traces (traces b) = Ok (miner b).
Proof.
  intros (header & rs & trs & Hh & Hr & Ht & Hasm)%returned_create_from_block_number_Ok.
  apply assemble_Ok in Hasm as (Hn & Hts & Hfee & <- & <- & Hminer).
  split_and!; try done.
  rewrite Hh, Hts, Hfee. by destruct header.
Qed.

(** X10: three returning lookups are not enough: when the first reward
    trace among the traces found has no [author], the assembly raises
    [KeyError author]. *)
Theorem missing_author_fails_the_assembly
    w3 n sess db header rs before trace after :
  returned (run (_find_or_fetch_block w3 n sess) db) = Ok header →
  returned (run (_find_or_fetch_block_receipts w3 n sess) db) = Ok rs →
  returned (run (_find_or_fetch_block_traces w3 n sess) db)
    = Ok (before ++ trace :: after) →
  Forall (λ t, type t ≠ reward) before →
  type trace = reward →
  action trace !! "author" = None →
  returned (run (create_from_block_number w3 n sess) db)
    = Raise (KeyError "author").
Proof.
  intros Hh Hr Ht Hbefore Hreward Hauthor.
  rewrite run_create_from_block_number, Hh, Hr, Ht. cbn [returned].
  unfold assemble.
  rewrite miner_skips_non_rewards, miner_at_reward by done.
  unfold getitem. by rewrite Hauthor.
Qed.

(** X11: when exactly one of the three lookups raises, the assembly raises
    that lookup's exception. *)
Theorem lone_failure_is_what_the_caller_sees w3 n sess db e :
  let header := returned (run (_find_or_fetch_block w3 n sess) db) in
  let rs := returned (run (_find_or_fetch_block_receipts w3 n sess) db) in
  let trs := returned (run (_find_or_fetch_block_traces w3 n sess) db) in
  let o := run (create_from_block_number w3 n sess) db in
  (header = Raise e → is_Ok rs = true → is_Ok trs = true →
     returned o = Raise e)
  ∧ (is_Ok header = true → rs = Raise e → is_Ok trs = true →
     returned o = Raise e)
  ∧ (is_Ok header = true → is_Ok rs = true → trs = Raise e →
     returned o = Raise e).
Proof.
  intros header rs trs o. unfold o.
  rewrite run_create_from_block_number. cbn [returned]. fold header rs trs.
  split_and!.
  - by intros ->.
  - intros Hh -> Ht. by destruct header, trs.
  - intros Hh Hr ->. by destruct header, rs.
Qed.

(** X12: the calls of an assembly are issued in one fixed order, header
    before receipts before traces and each select before the node call of
    its kind, and no call is issued twice. *)
Theorem calls_follow_one_order w3 n sess db :
  issued (run (create_from_block_number w3 n sess) db) `sublist_of` block_reads n
  ∧ NoDup (issued (run (create_from_block_number w3 n sess) db)).
Proof.
  assert (NoDup (block_reads n)) as Hnodup.
  { unfold block_reads. repeat (apply NoDup_cons; split);
      [..|apply NoDup_nil_2]; intros Hin; by one_of_calls Hin. }
  assert (issued (run (create_from_block_number w3 n sess) db)
            `sublist_of` block_reads n) as Hsub.
  { rewrite issued_create_from_block_number. unfold block_reads.
    destruct sess as [s|].
    - rewrite run_find_or_fetch_block_session,
        run_find_or_fetch_block_receipts_session,
        run_find_or_fetch_block_traces_session.
      destruct (decide _), (block_receipts db !! n), (block_traces db !! n);
        cbn [issued app];
        repeat first [apply sublist_nil | apply sublist_skip | apply sublist_cons].
    - rewrite run_find_or_fetch_block_no_session,
        run_find_or_fetch_block_receipts_no_session,
        run_find_or_fetch_block_traces_no_session.
      cbn [issued app].
      repeat first [apply sublist_nil | apply sublist_skip | apply sublist_cons]. }
  split; [done|]. by eapply sublist_NoDup.
Qed.

(** X13: with a session, every assembly reads the three tables, and it
    calls a node endpoint exactly when the table of that kind has no usable
    row: no row or a zero timestamp for the header, no row for receipts and
    for traces. *)
Theorem node_is_called_exactly_on_a_miss w3 n s db :
  let calls := issued (run (create_from_block_number w3 n (Some s)) db) in
  (Select_blocks n ∈ calls ∧ Select_block_receipts n ∈ calls
   ∧ Select_block_traces n ∈ calls)
  ∧ (Eth_get_block n ∈ calls ↔
       blocks db !! n = None ∨ ∃ bf, blocks db !! n = Some (0, bf))
  ∧ (Eth_get_block_receipts n ∈ calls ↔ block_receipts db !! n = None)
  ∧ (Eth_trace_block n ∈ calls ↔ block_traces db !! n = None).
Proof.
  intros calls. unfold calls.
  rewrite issued_create_from_block_number.
  rewrite run_find_or_fetch_block_session,
    run_find_or_fetch_block_receipts_session,
    run_find_or_fetch_block_traces_session.
  assert ((default (0, 0) (blocks db !! n)).1 = 0 ↔
          blocks db !! n = None ∨ ∃ bf, blocks db !! n = Some (0, bf)) as Hmiss.
  { destruct (blocks db !! n) as [[ts bf]|]; simpl.
    - split.
      + intros ->. right. by exists bf.
      + by intros [?|[bf' [= -> _]]].
    - split; [by left|done]. }
  rewrite <- Hmiss. clear Hmiss.
  destruct (decide _) as [Hts|Hts];
    [|assert ((default (0, 0) (blocks db !! n)).1 = 0) as Hz by lia];
    destruct (block_receipts db !! n), (block_traces db !! n);
    cbn [issued app];
    (split_and!;
      [ repeat first [by left | right]
      | repeat first [by left | right]
      | repeat first [by left | right]
      | ..];
      (split;
        [ intros Hin; first [done | exact Hz | by one_of_calls Hin]
        | intros HP;
          first [done | by destruct Hts | repeat first [by left | right]] ])).
Qed.

End further_block.

(** ** Transaction hashes and miner, continued *)

Lemma filter_not_elem_of_nil (l : list string) :
  filter (λ h, h ∉ []) l = l.
Proof.
  induction l as [|x l IH]; [done|].
  rewrite filter_cons_True by apply not_elem_of_nil. by rewrite IH.
Qed.

Lemma get_transaction_hashes_first_occurrences (calls : list Trace) :
  get_transaction_hashes calls = first_occurrences (candidate_hashes calls).
Proof.
  unfold get_transaction_hashes. rewrite fold_collect_hash. simpl.
  apply filter_not_elem_of_nil.
Qed.

Lemma length_first_occurrences (l : list string) :
  (length (first_occurrences l) ≤ length l)%nat.
Proof.
  induction l as [|x l IH]; simpl; [done|].
  pose proof (length_filter (λ y, y ≠ x) (first_occurrences l)). lia.
Qed.

Lemma length_candidate_hashes (calls : list Trace) :
  (length (candidate_hashes calls) ≤ length calls)%nat.
Proof.
  induction calls as [|c calls IH]; [done|].
  rewrite candidate_hashes_cons.
  destruct (decide _); [simpl; lia|].
  destruct (transaction_hash c); simpl; lia.
Qed.

(** X14: the hashes of a concatenation are the hashes of the first part
    followed by those hashes of the second part that the first part does not
    already give. *)
Theorem transaction_hashes_of_concatenation (l1 l2 : list Trace) :
  get_transaction_hashes (l1 ++ l2) =
    get_transaction_hashes l1
    ++ filter (λ h, h ∉ get_transaction_hashes l1) (get_transaction_hashes l2).
Proof.
  unfold get_transaction_hashes at 1. rewrite fold_left_app.
  fold (get_transaction_hashes l1). rewrite fold_collect_hash.
  by rewrite <- get_transaction_hashes_first_occurrences.
Qed.

(** X15: a trace that is a reward, or has no transaction hash, or repeats a
    hash met earlier, can be removed without changing the result. *)
Theorem traces_without_new_hash_change_nothing (l1 : list Trace) (c : Trace)
    (l2 : list Trace) :
  (type c = reward
   ∨ transaction_hash c = None
   ∨ ∃ h, transaction_hash c = Some h ∧ h ∈ get_transaction_hashes l1) →
  get_transaction_hashes (l1 ++ c :: l2) = get_transaction_hashes (l1 ++ l2).
Proof.
  intros Hc. unfold get_transaction_hashes.
  rewrite !fold_left_app. cbn [fold_left]. f_equal.
  fold (get_transaction_hashes l1). unfold collect_hash.
  destruct Hc as [Hr|[Hn|(h & Hh & Hin)]].
  - rewrite decide_False; [done|]. by intros ?.
  - destruct (decide _); [|done]. by rewrite Hn.
  - destruct (decide _); [|done]. rewrite Hh. by rewrite decide_True.
Qed.

(** X16: there are never more hashes than traces, and a list of traces
    without hashes, or made of rewards only, gives no hash. *)
Theorem transaction_hashes_are_bounded (calls : list Trace) :
  (length (get_transaction_hashes calls) ≤ length calls)%nat
  ∧ (Forall (λ c, type c = reward ∨ transaction_hash c = None) calls →
     get_transaction_hashes calls = []).
Proof.
  rewrite get_transaction_hashes_first_occurrences. split.
  - pose proof (length_first_occurrences (candidate_hashes calls)).
    pose proof (length_candidate_hashes calls). lia.
  - intros Hall. induction Hall as [|c calls Hc _ IH]; [done|].
    rewrite candidate_hashes_cons.
    destruct (decide _); [done|].
    destruct Hc as [?|Hn]; [done|]. by rewrite Hn.
Qed.

(** X17: the traces after the first reward trace are never inspected:
    replacing them by any other traces, rewards without [author] included,
    leaves the result unchanged. *)
Theorem traces_after_a_reward_are_ignored
    (before : list Trace) (trace : Trace) (after after' : list Trace) :
  type trace = reward →
  _get_miner_address_from_traces (before ++ trace :: after)
    = _get_miner_address_from_traces (before ++ trace :: after').
Proof.
  intros Hreward. induction before as [|t before IH]; simpl.
  - by rewrite !decide_True.
  - by destruct (decide (type t = reward)).
Qed.

(** ** The chain head, continued *)

(** X18: [get_latest_block_number] raises [TypeError] when the response is
    not an object and when its [result] is not an object (a null result
    included); it never changes the trace database. *)
Theorem head_of_a_malformed_response (p : BaseProvider) (db : TraceDb) :
  let request := [JStr "latest"; JBool false] in
  let o := run (get_latest_block_number p) db in
  (∀ response,
     make_request p "eth_getBlockByNumber" request = Ok response →
     (∀ d, response ≠ JDict d) →
     returned o = Raise TypeError)
  ∧ (∀ response head,
       make_request p "eth_getBlockByNumber" request = Ok (JDict response) →
       response !! "result" = Some head →
       (∀ d, head ≠ JDict d) →
       returned o = Raise TypeError)
  ∧ db_after o = db.
Proof.
  intros request o. unfold o, get_latest_block_number.
  rewrite run_bind.
  cbn [provider_make_request run returned db_after issued]. fold request.
  split_and!.
  - intros response -> Hnot. cbn [lift run returned].
    destruct response; try done. by destruct (Hnot d).
  - intros response head -> Hres Hnot. cbn [lift run returned].
    cbn [mbind result_bind json_getitem]. unfold getitem at 1.
    rewrite Hres. destruct head; try done. by destruct (Hnot d).
  - by destruct (make_request p "eth_getBlockByNumber" request).
Qed.

(** * Further scenarios *)

(** A header without a timestamp, and one without a base fee on either
    side of the height. *)
Lemma missing_fields_scenario :
  returned (run (_fetch_block (Cases.node_with_header {[ "baseFeePerGas" := 7 ]})
                   12970000) Fixtures.empty_db)
    = Raise (KeyError "timestamp")
  ∧ returned (run (_fetch_block
                     (Cases.node_with_header {[ "timestamp" := 1600000000 ]})
                     12965000) Fixtures.empty_db)
    = Raise (KeyError "baseFeePerGas")
  ∧ returned (run (_fetch_block
                     (Cases.node_with_header {[ "timestamp" := 1600000000 ]})
                     12964999) Fixtures.empty_db)
    = Ok (1600000000, 0).
Proof.
  split_and!.
  - apply (proj1 (proj2 (fetch_block_missing_fields _ _ _))
             {[ "baseFeePerGas" := 7 ]}); reflexivity.
  - exact (proj2 (proj2 (fetch_block_missing_fields
                           (Cases.node_with_header
                              {[ "timestamp" := 1600000000 ]})
                           12965000 Fixtures.empty_db))
             {[ "timestamp" := 1600000000 ]} 1600000000
             eq_refl eq_refl eq_refl).
  - exact (proj2 (proj2 (fetch_block_missing_fields
                           (Cases.node_with_header
                              {[ "timestamp" := 1600000000 ]})
                           12964999 Fixtures.empty_db))
             {[ "timestamp" := 1600000000 ]} 1600000000
             eq_refl eq_refl eq_refl).
Defined.

(** Block 12970000 is fully cached: a node that is down changes nothing. *)
Lemma fully_cached_scenario :
  issued (run (create_from_block_number (H:=Fixtures.schemas)
                 Cases.dead_node 12970000 (Some session)) Cases.full_db)
    = [Select_blocks 12970000; Select_block_receipts 12970000;
       Select_block_traces 12970000]
  ∧ run (create_from_block_number (H:=Fixtures.schemas)
           Cases.dead_node 12970000 (Some session)) Cases.full_db
    = run (create_from_block_number (H:=Fixtures.schemas)
             Fixtures.node 12970000 (Some session)) Cases.full_db.
Proof.
  apply (fully_cached_block_never_calls_the_node (H:=Fixtures.schemas)
           Cases.dead_node Fixtures.node 12970000 session Cases.full_db
           1622547800 1000000000
           [Fixtures.raw_receipt "0xaa"]
           [Fixtures.raw_tx "0xaa"; Fixtures.raw_reward "0xbeef"]);
    [reflexivity|discriminate|reflexivity|reflexivity].
Defined.

(** An empty database behaves as no database. *)
Lemma uncached_scenario :
  returned (run (create_from_block_number (H:=Fixtures.schemas)
                   Fixtures.node 12970000 (Some session)) Fixtures.empty_db)
    = returned (run (create_from_block_number (H:=Fixtures.schemas)
                       Fixtures.node 12970000 None) Fixtures.empty_db)
  ∧ issued (run (create_from_block_number (H:=Fixtures.schemas)
                   Fixtures.node 12970000 (Some session)) Fixtures.empty_db)
    = block_reads 12970000.
Proof.
  apply (uncached_block_is_fetched_as_without_session (H:=Fixtures.schemas)
           Fixtures.node 12970000 session Fixtures.empty_db); reflexivity.
Defined.

(** Block 7 is cached with a null trace: the lookup raises and the node is
    not asked. *)
Lemma unparsable_row_scenario :
  run (_find_or_fetch_block_traces (H:=Fixtures.schemas)
         Fixtures.node 7 (Some session)) Cases.corrupt_db
    = Outcome (Raise TypeError) Cases.corrupt_db [Select_block_traces 7]
  ∧ run (_find_or_fetch_block_receipts (H:=Fixtures.schemas)
           Fixtures.node 7 (Some session)) Cases.corrupt_db
    = Outcome (Raise ValidationError) Cases.corrupt_db
              [Select_block_receipts 7].
Proof.
  destruct (unparsable_cached_row_is_not_refetched (H:=Fixtures.schemas)
              Fixtures.node 7 session Cases.corrupt_db)
    as (Hreceipts & Htraces).
  split.
  - apply (Htraces [JNull] TypeError); reflexivity.
  - apply (Hreceipts [JDict ∅] ValidationError); reflexivity.
Defined.

(** The second of three raw traces is null. *)
Lemma unparsable_record_scenario :
  returned (run (_fetch_block_traces (H:=Fixtures.schemas)
                   (Cases.node_with_traces
                      [Fixtures.raw_tx "0xaa"; JNull; Fixtures.raw_tx "0xbb"])
                   1) Fixtures.empty_db)
    = Raise TypeError.
Proof.
  apply (proj2 (first_unparsable_record_surfaces (H:=Fixtures.schemas)
                  _ 1 Fixtures.empty_db
                  [Fixtures.raw_tx "0xaa"] JNull [Fixtures.raw_tx "0xbb"]
                  TypeError)).
  - reflexivity.
  - repeat constructor.
  - reflexivity.
Defined.

(** The block of the cached-header scenario is consistent with the
    lookups. *)
Lemma consistent_block_scenario :
  returned (run (_find_or_fetch_block Fixtures.node 12970000 (Some session))
                Fixtures.header_only_db)
    = Ok (1622547800, 1000000000)
  ∧ _get_miner_address_from_traces
      [Fixtures.tx "0xaa"; Fixtures.reward_trace "0xbeef"]
    = Ok (Some "0xbeef").
Proof.
  destruct (returned_block_is_consistent (H:=Fixtures.schemas)
              Fixtures.node 12970000 (Some session) Fixtures.header_only_db
              (Build_Block Fixtures.schemas
                 12970000 1622547800 (Some "0xbeef") 1000000000
                 [Fixtures.tx "0xaa"; Fixtures.reward_trace "0xbeef"]
                 [{| Fixtures.receipt_transaction_hash := "0xaa";
                     Fixtures.gas_used := 21000 |}]))
    as (_ & Hheader & _ & _ & Hminer).
  - vm_compute. reflexivity.
  - split; [exact Hheader|exact Hminer].
Defined.

(** The node's traces hold a reward with an empty action. *)
Lemma assembly_without_author_scenario :
  returned (run (create_from_block_number (H:=Fixtures.schemas)
                   (Cases.node_with_traces
                      [Fixtures.raw_tx "0xaa"; Cases.raw_reward_without_author])
                   12970000 None) Fixtures.empty_db)
    = Raise (KeyError "author").
Proof.
  apply (missing_author_fails_the_assembly (H:=Fixtures.schemas)
           _ 12970000 None Fixtures.empty_db
           (1600000000, 7)
           [{| Fixtures.receipt_transaction_hash := "0xaa";
               Fixtures.gas_used := 21000 |}]
           [Fixtures.tx "0xaa"]
           {| type := reward; transaction_hash := None; action := ∅ |}
           []).
  - reflexivity.
  - reflexivity.
  - vm_compute. reflexivity.
  - repeat constructor. discriminate.
  - reflexivity.
  - reflexivity.
Defined.

(** Only the trace endpoint fails: its exception reaches the caller. *)
Lemma lone_failure_scenario :
  returned (run (create_from_block_number (H:=Fixtures.schemas)
                   Fixtures.node_without_traces 100 None) Fixtures.empty_db)
    = Raise ConnectionError.
Proof.
  apply (proj2 (proj2 (lone_failure_is_what_the_caller_sees
                         (H:=Fixtures.schemas)
                         Fixtures.node_without_traces 100 None
                         Fixtures.empty_db ConnectionError)));
    reflexivity.
Defined.

(** A reward, a trace without hash and a repeated hash in the middle of a
    list. *)
Lemma removable_traces_scenario :
  get_transaction_hashes
    [Fixtures.tx "A"; Fixtures.reward_trace "0x01"; Fixtures.tx "B"]
    = get_transaction_hashes [Fixtures.tx "A"; Fixtures.tx "B"]
  ∧ get_transaction_hashes
      [Fixtures.tx "A"; Fixtures.tx "A"; Fixtures.tx "B"]
    = get_transaction_hashes [Fixtures.tx "A"; Fixtures.tx "B"].
Proof.
  split.
  - apply (traces_without_new_hash_change_nothing
             [Fixtures.tx "A"] (Fixtures.reward_trace "0x01") [Fixtures.tx "B"]).
    left. reflexivity.
  - apply (traces_without_new_hash_change_nothing
             [Fixtures.tx "A"] (Fixtures.tx "A") [Fixtures.tx "B"]).
    right. right. exists "A". split; [reflexivity|]. left.
Defined.

(** Rewards only. *)
Lemma no_hash_scenario :
  get_transaction_hashes
    [Fixtures.reward_trace "0x01"; Fixtures.reward_trace "0x02"] = [].
Proof.
  apply (proj2 (transaction_hashes_are_bounded _)).
  repeat constructor.
Defined.

(** A reward without author after a well-formed one does no harm. *)
Lemma ignored_tail_scenario :
  _get_miner_address_from_traces
    [Fixtures.tx "A"; Fixtures.reward_trace "0x01";
     Fixtures.reward_without_author]
  = _get_miner_address_from_traces
      [Fixtures.tx "A"; Fixtures.reward_trace "0x01"].
Proof.
  apply (traces_after_a_reward_are_ignored
           [Fixtures.tx "A"] (Fixtures.reward_trace "0x01")
           [Fixtures.reward_without_author] []).
  reflexivity.
Defined.

(** The node answers a null result, and a response that is a list. *)
Lemma malformed_head_scenario :
  returned (run (get_latest_block_number
                   (Fixtures.provider (Ok (JDict {[ "result" := JNull ]}))))
                Fixtures.empty_db) = Raise TypeError
  ∧ returned (run (get_latest_block_number
                     (Fixtures.provider (Ok (JList []))))
                  Fixtures.empty_db) = Raise TypeError.
Proof.
  split.
  - apply (proj1 (proj2 (head_of_a_malformed_response
                           (Fixtures.provider
                              (Ok (JDict {[ "result" := JNull ]})))
                           Fixtures.empty_db))
             {[ "result" := JNull ]} JNull);
      [reflexivity|reflexivity|discriminate].
  - apply (proj1 (head_of_a_malformed_response
                    (Fixtures.provider (Ok (JList []))) Fixtures.empty_db)
             (JList []));
      [reflexivity|discriminate].
Defined.
